(** * Cloudability reporting: the query/result typing layer and the cost
    attribution of [pr_costs]

  A shallow embedding of [src/cloudability.py] (measure catalog, filter
  builder, type conversion, result normalisation) and of the data-frame
  pipeline of [pr_costs] in [src/main.py], followed by the properties the
  specification states about them.

  Conventions of the embedding.
  - A Python call that may raise returns a value of [res]: [Ok v] or
    [Raise e], with the exception classes the code can raise in [exn].
  - A [dict] is an association list in insertion order with unique keys:
    the order in which [ret.items()] yields the columns is the order in
    which the first failing key of a renaming is found.
  - An instance attribute is an [option]: [None] is an attribute that was
    never assigned, and reading it raises [AttributeError].
  - A float is an exact rational ([Qc]); rounding, overflow and signed
    zeros are not modelled.  Inside the data frames the special values that
    pandas produces instead of raising (plus and minus infinity, and NaN,
    which is also its marker of a missing cell) are kept: see [fnum]. *)

From Stdlib Require Import QArith Qcanon ZArith String Ascii.
From stdpp Require Import base tactics option numbers list strings pretty
  gmap fin_maps sorting.

Local Open Scope string_scope.
Local Open Scope list_scope.

(* ===================================================================== *)
(** * The Python values and exceptions the code works with *)
(* ===================================================================== *)

Module Py.

(** The exception classes raised by the modelled code.  [RuntimeError]
    carries its message: the code tells its own failures apart by it. *)
Inductive exn : Type :=
| AttributeError (attr : string)
| KeyError (key : string)
| RuntimeError (msg : string)
| ValueError.

Inductive res (A : Type) : Type :=
| Ok (a : A)
| Raise (e : exn).
Global Arguments Ok {A} a.
Global Arguments Raise {A} e.

Global Instance res_ret : MRet res := @Ok.
Global Instance res_bind : MBind res := λ A B f m,
  match m with Ok a => f a | Raise e => Raise e end.
Global Instance res_fmap : FMap res := λ A B f m,
  match m with Ok a => Ok (f a) | Raise e => Raise e end.

Definition succeeds {A} (m : res A) : Prop := ∃ a, m = Ok a.
Definition fails {A} (m : res A) : Prop := ∃ e, m = Raise e.

(** [for x in l: s = body(x, s)], stopping at the first exception. *)
Fixpoint for_each {A S : Type} (body : A → S → res S) (l : list A) (s : S)
  : res S :=
  match l with
  | [] => Ok s
  | x :: l' => s' ← body x s; for_each body l' s'
  end.

(** ** Dictionaries *)

Definition dict (V : Type) : Type := list (string * V).

Fixpoint dict_get {V} (k : string) (d : dict V) : option V :=
  match d with
  | [] => None
  | (k', v) :: d' => if String.eqb k k' then Some v else dict_get k d'
  end.

(** [d[k] = v]: an existing key keeps its place, a new key goes last. *)
Fixpoint dict_set {V} (k : string) (v : V) (d : dict V) : dict V :=
  match d with
  | [] => [(k, v)]
  | (k', v') :: d' =>
      if String.eqb k k' then (k', v) :: d' else (k', v') :: dict_set k v d'
  end.

Definition keys {V} (d : dict V) : list string := d.*1.

(** [d[k]] *)
Definition getitem {V} (d : dict V) (k : string) : res V :=
  match dict_get k d with
  | Some v => Ok v
  | None => Raise (KeyError k)
  end.

(** [obj.attr] for an attribute that may never have been assigned. *)
Definition getattr {A} (attr : string) (slot : option A) : res A :=
  match slot with
  | Some a => Ok a
  | None => Raise (AttributeError attr)
  end.

(** ** Values of a raw row and of a typed column

    The transport hands over JSON: a cell is a string or a number. *)
Inductive value : Type :=
| PStr (s : string)
| PInt (z : Z)
| PFloat (q : Qc).

#[global] Instance value_eq_dec : EqDecision value.
Proof. solve_decision. Defined.

(** The text-facing halves of [float()], [int()] and [str()] belong to
    the interpreter; the code only calls them.  They are a parameter of the
    development, and [ascii_text] below is an instance to compute with.
    A string that [float()] reads as an infinity or as NaN is outside the
    model: the figures of the API are decimal numerals. *)
Class Text : Type := {
  parse_float : string → option Qc;   (* float(s) for a str s *)
  parse_int : string → option Z;      (* int(s) for a str s *)
  repr_float : Qc → string;           (* str(x) for a float x *)
  repr_int : Z → string               (* str(n) for an int n *)
}.

(** [float(v)] *)
Definition py_float {T : Text} (v : value) : res value :=
  match v with
  | PFloat q => Ok (PFloat q)
  | PInt z => Ok (PFloat (Qc_of_Z z))
  | PStr s =>
      match parse_float s with
      | Some q => Ok (PFloat q)
      | None => Raise ValueError
      end
  end.

(** [int(v)]: a float is truncated towards zero, a string is parsed. *)
Definition trunc (q : Qc) : Z := Z.quot (Qnum q) (Z.pos (Qden q)).

Definition py_int {T : Text} (v : value) : res value :=
  match v with
  | PInt z => Ok (PInt z)
  | PFloat q => Ok (PInt (trunc q))
  | PStr s =>
      match parse_int s with
      | Some z => Ok (PInt z)
      | None => Raise ValueError
      end
  end.

(** [str(v)] *)
Definition py_str {T : Text} (v : value) : string :=
  match v with
  | PStr s => s
  | PInt z => repr_int z
  | PFloat q => repr_float q
  end.

(** ** A text layer to compute with: plain ASCII decimal numerals

    A subset of what the interpreter reads: an optional sign, digits and,
    for a float, an optional fractional part. *)
Definition digit (c : ascii) : option Z :=
  let n := Z.of_N (N_of_ascii c) in
  if ((48 <=? n) && (n <=? 57))%Z then Some (n - 48)%Z else None.

Fixpoint fraction (num : Z) (den : positive) (s : string) : option Q :=
  match s with
  | EmptyString => Some (num # den)
  | String c s' =>
      match digit c with
      | Some d => fraction (10 * num + d) (10 * den) s'
      | None => None
      end
  end.

Fixpoint decimal (num : Z) (s : string) : option Q :=
  match s with
  | EmptyString => Some (num # 1)
  | String c s' =>
      if Ascii.eqb c "."%char then fraction num 1 s'
      else match digit c with
           | Some d => decimal (10 * num + d) s'
           | None => None
           end
  end.

Definition unsigned (s : string) : option Q :=
  match s with
  | EmptyString => None
  | String c _ => if Ascii.eqb c "."%char then None else decimal 0 s
  end.

Definition signed (s : string) : option Q :=
  match s with
  | String c s' =>
      if Ascii.eqb c "-"%char then Qopp <$> unsigned s'
      else if Ascii.eqb c "+"%char then unsigned s'
      else unsigned s
  | EmptyString => None
  end.

Definition ascii_parse_float (s : string) : option Qc := Q2Qc <$> signed s.

Definition ascii_parse_int (s : string) : option Z :=
  match signed s with
  | Some q => if Pos.eqb (Qden q) 1 then Some (Qnum q) else None
  | None => None
  end.

Fixpoint fraction_digits (fuel : nat) (r : Z) (d : Z) : string :=
  match fuel with
  | O => ""
  | S fuel' =>
      if (r =? 0)%Z then ""
      else pretty (10 * r / d)%Z +:+ fraction_digits fuel' ((10 * r) mod d)%Z d
  end.

Definition ascii_repr_float (q : Qc) : string :=
  let n := Z.abs (Qnum q) in
  let d := Z.pos (Qden q) in
  (if (Qnum q <? 0)%Z then "-" else "")
  +:+ pretty (n / d)%Z +:+ "."
  +:+ (if (n mod d =? 0)%Z then "0" else fraction_digits 17 (n mod d)%Z d).

Definition ascii_text : Text := {|
  parse_float := ascii_parse_float;
  parse_int := ascii_parse_int;
  repr_float := ascii_repr_float;
  repr_int := pretty
|}.

End Py.
Import Py.

(* ===================================================================== *)
(** * src/cloudability.py *)
(* ===================================================================== *)

Module Cloudability.

(** ** class Measures *)

(** One record of the catalog returned by the measures endpoint. *)
Record measure : Type := Measure {
  label : string;
  name : string;
  data_type : string
}.

Fixpoint name_from_label (measures : list measure) (l : string) : res string :=
  match measures with
  | [] => Raise (RuntimeError ("Label " +:+ l +:+ " not found in measures.json"))
  | m :: measures' =>
      if String.eqb (label m) l then Ok (name m)
      else name_from_label measures' l
  end.

Fixpoint type_from_name (measures : list measure) (n : string) : res string :=
  match measures with
  | [] => Raise (RuntimeError ("Name " +:+ n +:+ " not found in measures.json"))
  | m :: measures' =>
      if String.eqb (name m) n then Ok (data_type m)
      else type_from_name measures' n
  end.

(** ** class Request

    The class body declares [filters], [dimensions], [metrics] and
    [name_mapping] by annotation only, so an instance has them only once
    [__init__] assigned them; [days] has a class-level default. *)
Record Request : Type := {
  filters : option (list string);
  dimensions : option (list string);
  metrics : option (list string);
  name_mapping : option (dict string);
  days : Z
}.

(** [if x: self.x = x]: [None] and the empty container are falsy. *)
Definition assigned_if_truthy {A} (x : option (list A)) : option (list A) :=
  match x with
  | Some (a :: l) => Some (a :: l)
  | _ => None
  end.

(** [Request.__init__] *)
Definition Request_init (filters dimensions metrics : option (list string))
    (mappings : option (dict string)) (days : Z) : Request :=
  {| filters := assigned_if_truthy filters;
     dimensions := assigned_if_truthy dimensions;
     metrics := assigned_if_truthy metrics;
     name_mapping := assigned_if_truthy mappings;
     days := days |}.

(** ** Request.make_filter *)

Definition filter_operators : list string :=
  [ "!=@"; "!="; "<="; "<"; "=@"; "[]!="; "[]="; "=="; ">"; "==="; "!==";
    ">=" ].

(** [urllib.parse.quote] with its default [safe='/']: letters, digits and
    the characters [_.-~/] are kept, every other byte becomes [%XX] with
    upper-case hexadecimal digits. *)
Definition always_safe (c : ascii) : bool :=
  let n := N_of_ascii c in
  ((65 <=? n) && (n <=? 90) || (97 <=? n) && (n <=? 122)
   || (48 <=? n) && (n <=? 57))%N
  || bool_decide (c ∈ ["_"; "."; "-"; "~"; "/"]%char).

Definition hex_digit (n : N) : ascii :=
  if (n <? 10)%N then ascii_of_N (48 + n) else ascii_of_N (55 + n).

Definition quote_byte (c : ascii) : string :=
  if always_safe c then String c ""
  else
    let n := N_of_ascii c in
    String "%" (String (hex_digit (n / 16)) (String (hex_digit (n mod 16)) "")).

Fixpoint quote (s : string) : string :=
  match s with
  | EmptyString => ""
  | String c s' => quote_byte c +:+ quote s'
  end.

Definition UnsupportedOperatorError : exn := RuntimeError "Unsupported operator".

Definition make_filter (key operator value : string) : res string :=
  if bool_decide (operator ∈ filter_operators)
  then Ok (quote (key +:+ operator +:+ value))
  else Raise UnsupportedOperatorError.

(** ** Request.convert *)

Definition UnsupportedTypeError (tp : string) : exn :=
  RuntimeError ("Unsupported type " +:+ tp).

Definition convert {T : Text} (tp : string) (v : value) : res value :=
  if String.eqb tp "float" then py_float v
  else if String.eqb tp "date" then Ok (PStr (py_str v))
  else if String.eqb tp "percentage" then py_float v
  else if String.eqb tp "integer" then py_int v
  else if String.eqb tp "currency" then py_float v
  else if String.eqb tp "string" then Ok (PStr (py_str v))
  else Raise (UnsupportedTypeError tp).

(** ** Request._request_result_to_dict *)

Definition columns : Type := dict (list value).

(** Lines 81-86, one turn: [ret[n] = []; types[n] = type_from_name(n)]. *)
Definition init_column (measures : list measure) (n : string)
    (st : columns * dict string) : res (columns * dict string) :=
  let ret := dict_set n [] st.1 in
  tp ← type_from_name measures n;
  Ok (ret, dict_set n tp st.2).

(** Lines 89-91 and 93-95:
    [ret[n].append(Request.convert(types[n], line[n]))]. *)
Definition append_cell {T : Text} (line : dict value) (types : dict string)
    (n : string) (ret : columns) : res columns :=
  column ← getitem ret n;
  tp ← getitem types n;
  raw ← getitem line n;
  cell ← convert tp raw;
  Ok (dict_set n (column ++ [cell]) ret).

(** Lines 87-95, one turn of the loop over the rows. *)
Definition append_line {T : Text} (metrics dimensions : list string)
    (types : dict string) (line : dict value) (ret : columns) : res columns :=
  ret ← for_each (append_cell line types) metrics ret;
  for_each (append_cell line types) dimensions ret.

(** Lines 79-95: the typed columns under the names of the measures. *)
Definition typed_columns {T : Text} (self : Request)
    (request_result : list (dict value)) (measures : list measure)
    : res columns :=
  ms ← getattr "metrics" (metrics self);
  st ← for_each (init_column measures) ms ([], []);
  ds ← getattr "dimensions" (dimensions self);
  st ← for_each (init_column measures) ds st;
  for_each (append_line ms ds st.2) request_result st.1.

(** Lines 98-101: [mapped_ret[self.name_mapping[k]] = v] over [ret.items()]. *)
Definition rename_column (mapping : dict string) (kv : string * list value)
    (mapped_ret : columns) : res columns :=
  alias ← getitem mapping kv.1;
  Ok (dict_set alias kv.2 mapped_ret).

Definition rename (mapping : dict string) (ret : columns) : res columns :=
  for_each (rename_column mapping) ret [].

Definition _request_result_to_dict {T : Text} (self : Request)
    (request_result : list (dict value)) (measures : list measure)
    : res columns :=
  ret ← typed_columns self request_result measures;
  mapping ← getattr "name_mapping" (name_mapping self);
  match mapping with
  | [] => Ok ret
  | _ :: _ => rename mapping ret
  end.

End Cloudability.
Import Cloudability.

(* ===================================================================== *)
(** * src/main.py: the data frames of [pr_costs] *)
(* ===================================================================== *)

(** ** Floats inside a data frame

    A cell is a finite number, an infinity or NaN.  pandas does not raise
    on a division by zero: it yields an infinity, or NaN for 0/0.  NaN is
    also the cell an outer join leaves where one side has no row. *)
Inductive fnum : Type :=
| Fin (q : Qc)
| PInf
| NInf
| NaN.

#[global] Instance fnum_eq_dec : EqDecision fnum.
Proof. solve_decision. Defined.

Definition fneg (x : fnum) : fnum :=
  match x with
  | Fin q => Fin (- q)
  | PInf => NInf
  | NInf => PInf
  | NaN => NaN
  end.

Definition fadd (x y : fnum) : fnum :=
  match x, y with
  | NaN, _ | _, NaN => NaN
  | Fin a, Fin b => Fin (a + b)
  | PInf, NInf | NInf, PInf => NaN
  | PInf, _ | _, PInf => PInf
  | NInf, _ | _, NInf => NInf
  end.

Definition fsub (x y : fnum) : fnum := fadd x (fneg y).

(** An infinity times or over a finite number keeps or flips its sign;
    zero counts as positive zero. *)
Definition scale_inf (i : fnum) (q : Qc) (zero : fnum) : fnum :=
  match (q ?= 0)%Qc with
  | Gt => i
  | Lt => fneg i
  | Eq => zero
  end.

Definition fmul (x y : fnum) : fnum :=
  match x, y with
  | NaN, _ | _, NaN => NaN
  | Fin a, Fin b => Fin (a * b)
  | Fin a, i | i, Fin a => scale_inf i a NaN
  | PInf, PInf | NInf, NInf => PInf
  | PInf, NInf | NInf, PInf => NInf
  end.

Definition fdiv (x y : fnum) : fnum :=
  match x, y with
  | NaN, _ | _, NaN => NaN
  | Fin a, Fin b =>
      if decide (b = 0%Qc) then scale_inf PInf a NaN else Fin (a / b)
  | Fin _, _ => Fin 0
  | i, Fin b => scale_inf i b i
  | _, _ => NaN
  end.

(** [x.fillna(v)] on one cell. *)
Definition fillna (v : fnum) (x : fnum) : fnum :=
  match x with
  | NaN => v
  | _ => x
  end.

(** The comparison [<=] of two floats: false as soon as one is NaN. *)
Definition fle (x y : fnum) : Prop :=
  match x, y with
  | NaN, _ | _, NaN => False
  | NInf, _ | _, PInf => True
  | Fin a, Fin b => (a ≤ b)%Qc
  | _, _ => False
  end.

(** The order [sort_values] arranges a float column in: ascending, NaN
    last ([na_position='last']). *)
Definition sort_le (x y : fnum) : Prop :=
  match x, y with
  | _, NaN => True
  | NaN, _ => False
  | _, _ => fle x y
  end.

#[global] Instance fle_dec : RelDecision fle.
Proof. intros [a| | |] [b| | |]; simpl; apply _. Defined.

#[global] Instance sort_le_dec : RelDecision sort_le.
Proof. intros [a| | |] [b| | |]; simpl; apply _. Defined.

(** ** The frames

    A report is a frame with one row per record.  [Project] and [Branch]
    are its key columns.  The cost and hour columns are float columns; the
    dtype that pandas infers for a frame built from empty lists is not
    modelled. *)
Definition key : Type := string * string.

(** The total-cost report: columns Cost, Usage_Hours, Project, Branch. *)
Module Total.
Record row : Type := Row {
  Project : string;
  Branch : string;
  Cost : Qc;
  Usage_Hours : Qc
}.
End Total.

(** The rogue-cost report: columns Rogue_Cost, Rogue_Usage_Hours, Project,
    Branch, Resource_ID. *)
Module Rogue.
Record row : Type := Row {
  Project : string;
  Branch : string;
  Resource_ID : string;
  Rogue_Cost : Qc;
  Rogue_Usage_Hours : Qc
}.
End Rogue.

(** The frame [costs] that [pr_costs] returns, indexed by (Project, Branch). *)
Module Costs.
Record row : Type := Row {
  Cost : fnum;
  Usage_Hours : fnum;
  Rogue_Cost : fnum;
  Rogue_Usage_Hours : fnum
}.
End Costs.

#[global] Instance costs_row_eq_dec : EqDecision Costs.row.
Proof. solve_decision. Defined.

(** A frame as the grouping sees it: the key columns and the two float
    columns; a string column such as Resource_ID is dropped by
    [sum(numeric_only=True)]. *)
Definition frame : Type := list (key * (fnum * fnum)).

Definition total_key (r : Total.row) : key :=
  (Total.Project r, Total.Branch r).

Definition rogue_key (r : Rogue.row) : key :=
  (Rogue.Project r, Rogue.Branch r).

Definition total_frame (total_cost : list Total.row) : frame :=
  (λ r, (total_key r, (Fin (Total.Cost r), Fin (Total.Usage_Hours r))))
    <$> total_cost.

(** Lines 146-149, on one row: the cost is rewritten from the cost and the
    hours as they were read, then the hours are. *)
Definition adjust (r : Rogue.row) : key * (fnum * fnum) :=
  let Rogue_Cost := Fin (Rogue.Rogue_Cost r) in
  let Rogue_Usage_Hours := Fin (Rogue.Rogue_Usage_Hours r) in
  (rogue_key r,
   (fsub Rogue_Cost (fmul (fdiv Rogue_Cost Rogue_Usage_Hours) (Fin (Qc_of_Z 4))),
    fsub Rogue_Usage_Hours (Fin (Qc_of_Z 4)))).

(** [df.groupby(["Project", "Branch"]).sum(numeric_only=True)]: one entry
    per key, each float column summed in row order, a NaN cell skipped. *)
Definition add_cells (acc v : fnum * fnum) : fnum * fnum :=
  (fadd acc.1 (fillna (Fin 0) v.1), fadd acc.2 (fillna (Fin 0) v.2)).

Definition group_step (groups : gmap key (fnum * fnum))
    (r : key * (fnum * fnum)) : gmap key (fnum * fnum) :=
  <[r.1 := add_cells (default (Fin 0, Fin 0) (groups !! r.1)) r.2]> groups.

Definition group_by_and_sum (df : frame) : gmap key (fnum * fnum) :=
  foldl group_step ∅ df.

(** [pd.concat([l, r], axis=1)]: the outer join on the index; the cells of
    the side that has no row for a key are NaN. *)
Definition concat_row (l r : option (fnum * fnum)) : option Costs.row :=
  match l, r with
  | None, None => None
  | _, _ =>
      let l := default (NaN, NaN) l in
      let r := default (NaN, NaN) r in
      Some (Costs.Row l.1 l.2 r.1 r.2)
  end.

Definition concat (l r : gmap key (fnum * fnum)) : gmap key Costs.row :=
  merge concat_row l r.

(** Lines 163-167. *)
Definition fill_rogue (c : Costs.row) : Costs.row :=
  Costs.Row (Costs.Cost c) (Costs.Usage_Hours c)
            (fillna (Fin 0) (Costs.Rogue_Cost c))
            (fillna (Fin 0) (Costs.Rogue_Usage_Hours c)).

(** Lines 172-173. *)
Definition net (c : Costs.row) : Costs.row :=
  Costs.Row (fsub (Costs.Cost c) (Costs.Rogue_Cost c))
            (fsub (Costs.Usage_Hours c) (Costs.Rogue_Usage_Hours c))
            (Costs.Rogue_Cost c)
            (Costs.Rogue_Usage_Hours c).

(** Line 174: [costs.sort_values(by=['Cost'])].  pandas does not fix the
    order of rows of equal cost; a merge sort stands for its sort. *)
Definition by_cost (a b : key * Costs.row) : Prop :=
  sort_le (Costs.Cost a.2) (Costs.Cost b.2).

#[global] Instance by_cost_dec : RelDecision by_cost.
Proof. intros a b. unfold by_cost. apply _. Defined.

Definition sort_values (costs : list (key * Costs.row))
  : list (key * Costs.row) :=
  merge_sort by_cost costs.

(** [pr_costs] from line 146 on, as a function of the two reports its
    queries return.  [costs_table] is the frame before it is sorted.

    The queries of lines 66-135 go through the network and are not part
    of the embedding; they are built with [Filter] and [FilterOperator],
    which [main.py] imports from [cloudability] and [src/cloudability.py]
    does not define.  What matters of them here is the filter of the rogue
    query, Usage Hours >= 4 (lines 107-110): see [over_threshold]. *)
Definition costs_table (total_cost : list Total.row)
    (rogue_cost : list Rogue.row) : gmap key Costs.row :=
  let rogue_cost := adjust <$> rogue_cost in
  let costs := concat (group_by_and_sum (total_frame total_cost))
                      (group_by_and_sum rogue_cost) in
  let costs := fill_rogue <$> costs in
  net <$> costs.

Definition pr_costs (total_cost : list Total.row)
    (rogue_cost : list Rogue.row) : list (key * Costs.row) :=
  sort_values (map_to_list (costs_table total_cost rogue_cost)).


(* ===================================================================== *)
(** * The vocabulary of the properties *)
(* ===================================================================== *)




(** The names under which a request asks for columns. *)
Definition output_keys (self : Request) : list string :=
  default [] (metrics self) ++ default [] (dimensions self).

(** The alias of a column under a mapping that has it. *)
Definition alias (mapping : dict string) (k : string) : string :=
  default k (dict_get k mapping).

(** How many times a name occurs in a list of requested names. *)
Definition occurrences (k : string) (names : list string) : nat :=
  length (filter (λ n, n = k) names).

(** ** Sample data

    A two-measure catalog, two raw rows and a request with a complete
    mapping, to evaluate the normaliser on. *)
Definition sample_measures : list measure :=
  [ Measure "Usage Hours" "usage_hours" "integer";
    Measure "Project (value)" "tag_project" "string" ].

Definition sample_rows : list (dict value) :=
  [ [("usage_hours", PStr "12"); ("tag_project", PStr "A")];
    [("tag_project", PStr "B"); ("usage_hours", PInt 3)] ].

Definition sample_mapping : dict string :=
  [("tag_project", "Project"); ("usage_hours", "Usage_Hours")].

Definition sample_request : Request :=
  Request_init None (Some ["tag_project"]) (Some ["usage_hours"])
               (Some sample_mapping) 7.

(** ** The cost attribution *)

Definition Qc_sum (l : list Qc) : Qc := foldr Qcplus 0%Qc l.

(** The rows of a report that belong to one (Project, Branch). *)
Definition total_of (k : key) (total_cost : list Total.row) : list Total.row :=
  filter (λ r, total_key r = k) total_cost.

Definition rogue_of (k : key) (rogue_cost : list Rogue.row) : list Rogue.row :=
  filter (λ r, rogue_key r = k) rogue_cost.

(** The rogue query keeps the resources used for four hours or more
    (main.py, lines 107-110): a rogue report is a list of such rows. *)
Definition over_threshold (r : Rogue.row) : Prop :=
  (Qc_of_Z 4 ≤ Rogue.Rogue_Usage_Hours r)%Qc.

#[global] Instance over_threshold_dec r : Decision (over_threshold r).
Proof. unfold over_threshold. apply _. Defined.

(** The adjusted figures of one resource, as the specification writes
    them: [c - (c / h) * 4] and [h - 4]. *)
Definition adjusted_cost (r : Rogue.row) : Qc :=
  (Rogue.Rogue_Cost r
   - Rogue.Rogue_Cost r / Rogue.Rogue_Usage_Hours r * Qc_of_Z 4)%Qc.

Definition adjusted_hours (r : Rogue.row) : Qc :=
  (Rogue.Rogue_Usage_Hours r - Qc_of_Z 4)%Qc.

(** Sample reports: project A has two resources over the threshold, one
    of them at exactly four hours; project B has none; project C is known to
    the rogue report only. *)
Definition sample_total : list Total.row :=
  [ Total.Row "A" "X" (Qc_of_Z 100) (Qc_of_Z 50);
    Total.Row "B" "Y" (Qc_of_Z 5) (Qc_of_Z 10);
    Total.Row "A" "X" (Qc_of_Z 10) (Qc_of_Z 3) ].

Definition sample_rogue : list Rogue.row :=
  [ Rogue.Row "A" "X" "r1" (Qc_of_Z 20) (Qc_of_Z 10);
    Rogue.Row "A" "X" "r2" (Qc_of_Z 30) (Qc_of_Z 4) ].

Definition stray_rogue : list Rogue.row :=
  [ Rogue.Row "C" "Z" "r3" (Qc_of_Z 20) (Qc_of_Z 10) ].

(* ===================================================================== *)
(** * Further vocabulary *)
(* ===================================================================== *)

(** The Python type a declared type converts to: [float] for float,
    percentage and currency, [int] for integer, [str] for date and string. *)
Definition has_type (tp : string) (v : value) : bool :=
  match v with
  | PFloat _ => bool_decide (tp ∈ ["float"; "percentage"; "currency"])
  | PInt _ => bool_decide (tp = "integer")
  | PStr _ => bool_decide (tp ∈ ["date"; "string"])
  end.

(** A left inverse of [quote]: a percent sign followed by two upper-case
    hexadecimal digits stands for the byte they write. *)
Definition hex_value (c : ascii) : option N :=
  let n := N_of_ascii c in
  if ((48 <=? n) && (n <=? 57))%N then Some (n - 48)%N
  else if ((65 <=? n) && (n <=? 70))%N then Some (n - 55)%N
  else None.

Fixpoint decode (s : string) : string :=
  match s with
  | EmptyString => ""
  | String c s' =>
      if Ascii.eqb c "%"%char then
        match s' with
        | String h (String l s'') =>
            match hex_value h, hex_value l with
            | Some a, Some b => String (ascii_of_N (16 * a + b)) (decode s'')
            | _, _ => String c (decode s')
            end
        | _ => String c (decode s')
        end
      else String c (decode s')
  end.

(** The characters that structure a query string. *)
Definition delimiter (c : ascii) : bool :=
  bool_decide (c ∈ ["&"; "="; ","; "?"; "#"; " "; "+"; ";"]%char).

Fixpoint string_forallb (p : ascii → bool) (s : string) : bool :=
  match s with
  | EmptyString => true
  | String c s' => p c && string_forallb p s'
  end.

(** The cell a raw row gives to the column [k] of declared type [tp]:
    [Request.convert(tp, line[k])]. *)
Definition cell_of {T : Text} (tp k : string) (line : dict value) : res value :=
  raw ← getitem line k; convert tp raw.

(* ===================================================================== *)
(** * The functions that talk to the outside *)
(* ===================================================================== *)

(** ** Exceptions and results of the code around the typing layer

    [Request.report], [CloudabilityReport._query_report] and
    [get_cloudability_token] call libraries ([datetime], [requests],
    [subprocess]) and use [assert], [len] and [int] on untyped values: they
    can end in more ways than the typing layer.  [Foreign] is an exception
    that a library call raised, under the name of its class. *)
Inductive exc : Type :=
| Of (e : exn)
| AssertionError (msg : string)
| TypeError
| Foreign (class : string).

Inductive io (A : Type) : Type :=
| Return (a : A)
| Throw (e : exc).
Global Arguments Return {A} a.
Global Arguments Throw {A} e.

#[global] Instance io_ret : MRet io := @Return.
#[global] Instance io_bind : MBind io := λ A B f m,
  match m with Return a => f a | Throw e => Throw e end.

(** A call into the typing layer. *)
Definition lift {A} (m : res A) : io A :=
  match m with
  | Ok a => Return a
  | Raise e => Throw (Of e)
  end.

(** [sep.join(l)] *)
Fixpoint join (sep : string) (l : list string) : string :=
  match l with
  | [] => ""
  | [s] => s
  | s :: l' => s +:+ sep +:+ join sep l'
  end.

(** ** Request.report

    [datetime] is a parameter: [earlier now d] is [now - timedelta(days=d)],
    which raises when the date leaves the range of the calendar, and
    [strftime] writes an instant as year-month-day. *)
Class Clock : Type := {
  instant : Type;
  earlier : instant → Z → io instant;
  strftime : instant → string
}.

Definition query_string (dimensions filters metrics : list string)
    (start_date end_date : string) : string :=
  "dimensions=" +:+ join "," dimensions
  +:+ "&start_date=" +:+ start_date
  +:+ "&end_date=" +:+ end_date
  +:+ "&filters=" +:+ join "&filters=" filters
  +:+ "&metrics=" +:+ join "," metrics.

(** [now] is the value of [dt.now()]; [handler] is the transport. *)
Definition report {T : Text} {C : Clock} (self : Request)
    (handler : string → io (list (dict value))) (measures : list measure)
    (now : instant) : io columns :=
  start ← earlier now (days self);
  let start_date := strftime start in
  let end_date := strftime now in
  ds ← lift (getattr "dimensions" (dimensions self));
  fs ← lift (getattr "filters" (filters self));
  ms ← lift (getattr "metrics" (metrics self));
  list_report ← handler (query_string ds fs ms start_date end_date);
  lift (_request_result_to_dict self list_report measures).

(** ** CloudabilityReport._query_report

    What [request.json()] returns: any JSON value. *)
#[local] Unset Elimination Schemes.
Inductive json : Type :=
| JNull
| JBool (b : bool)
| JInt (z : Z)
| JFloat (q : Qc)
| JStr (s : string)
| JList (l : list json)
| JDict (d : list (string * json)).
#[local] Set Elimination Schemes.

(** [bool(j)] *)
Definition truthy (j : json) : bool :=
  match j with
  | JNull => false
  | JBool b => b
  | JInt z => negb (z =? 0)%Z
  | JFloat q => negb (bool_decide (q = 0%Qc))
  | JStr s => negb (String.eqb s "")
  | JList l => negb (bool_decide (length l = 0%nat))
  | JDict d => negb (bool_decide (length d = 0%nat))
  end.

(** The number of characters of a string held as UTF-8: the bytes that do
    not continue a character. *)
Fixpoint characters (s : string) : nat :=
  match s with
  | EmptyString => 0
  | String c s' =>
      let n := N_of_ascii c in
      ((if ((128 <=? n) && (n <? 192))%N then 0 else 1) + characters s')%nat
  end.

(** [len(j)] *)
Definition py_len (j : json) : io nat :=
  match j with
  | JStr s => Return (characters s)
  | JList l => Return (length l)
  | JDict d => Return (length d)
  | _ => Throw TypeError
  end.

(** [int(j)] *)
Definition json_int {T : Text} (j : json) : io Z :=
  match j with
  | JInt z => Return z
  | JBool b => Return (if b then 1 else 0)%Z
  | JFloat q => Return (trunc q)
  | JStr s =>
      match parse_int s with
      | Some z => Return z
      | None => Throw (Of ValueError)
      end
  | _ => Throw TypeError
  end.

(** [requests.get(url, headers, auth=(token, '')).json()] and the text
    Python writes for a value inside an f-string are parameters. *)
Class Http : Type := {
  get_json : string → string → io json;
  repr_json : json → string
}.

Definition CLOUDABILITY_API : string := "api.cloudability.com".

Definition _query_report {T : Text} {H : Http} (cloudaility_token : string)
    (query : string) : io json :=
  response ←
    get_json ("https://" +:+ CLOUDABILITY_API +:+ "/v3/reporting/cost/run?"
              +:+ query)
             cloudaility_token;
  match response with
  | JDict d =>
      if negb (truthy response)
      then Throw (Of (RuntimeError "Was expecting response"))
      else
        pagination ← lift (getitem d "pagination");
        (* [if pagination: RuntimeError(...)] builds an exception and
           drops it: there is no [raise] *)
        results ← lift (getitem d "results");
        n ← py_len results;
        total_results ← lift (getitem d "total_results");
        total ← json_int total_results;
        if (Z.of_nat n =? total)%Z then Return results
        else Throw (AssertionError "Pagination not supported yet")
  | _ =>
      Throw (Of (RuntimeError ("Report result should be dict " +:+ query
                               +:+ " " +:+ repr_json response)))
  end.

(** ** get_cloudability_token

    The parsed arguments ([None] for an option that was not given), the
    environment and the command runner.  [check_output cmd] is
    [subprocess.check_output(shlex.split(cmd)).decode("utf-8")].  The last
    test of the function, [isinstance(cloudaility_token, str)], is passed by
    every non-empty value of the three sources, which are strings. *)
Module Args.
Record t : Type := Make {
  token : option string;
  token_env_var : option string;
  token_command : option string
}.
End Args.

Class Os : Type := {
  getenv : string → option string;
  check_output : string → io string
}.

Definition given (arg : option string) : bool :=
  match arg with
  | Some s => negb (String.eqb s "")
  | None => false
  end.

(** [s.replace("\n", "")] *)
Fixpoint remove_newlines (s : string) : string :=
  match s with
  | EmptyString => ""
  | String c s' =>
      if Ascii.eqb c "010"%char then remove_newlines s'
      else String c (remove_newlines s')
  end.

Definition get_cloudability_token {O : Os} (args : Args.t) : io string :=
  cloudaility_token ←
    (if given (Args.token args) then Return (Args.token args)
     else if given (Args.token_env_var args)
     then Return (getenv (default "" (Args.token_env_var args)))
     else if given (Args.token_command args)
     then out ← check_output (default "" (Args.token_command args));
          Return (Some (remove_newlines out))
     else Throw (Of (RuntimeError "no cloudability token was provided")));
  if given cloudaility_token
  then Return (default "" cloudaility_token)
  else Throw (Of (RuntimeError "Not cloudability token provided")).

(** ** Sample surroundings

    A clock whose instants are days counted from 1970-01-01, within the
    years 1 to 9999 of [datetime]; a transport that answers every query with
    one response; an environment without variables whose commands print one
    line. *)
Definition two_digits (n : Z) : string :=
  (if (n <? 10)%Z then "0" else "") +:+ pretty n.

Definition civil (day : Z) : string :=
  let z := (day + 719468)%Z in
  let era := (z / 146097)%Z in
  let doe := (z - era * 146097)%Z in
  let yoe := ((doe - doe / 1460 + doe / 36524 - doe / 146096) / 365)%Z in
  let doy := (doe - (365 * yoe + yoe / 4 - yoe / 100))%Z in
  let mp := ((5 * doy + 2) / 153)%Z in
  let d := (doy - (153 * mp + 2) / 5 + 1)%Z in
  let m := (if (mp <? 10)%Z then mp + 3 else mp - 9)%Z in
  let y := (yoe + era * 400 + (if (m <=? 2)%Z then 1 else 0))%Z in
  pretty y +:+ "-" +:+ two_digits m +:+ "-" +:+ two_digits d.

Definition day_clock : Clock := {|
  instant := Z;
  earlier now d :=
    let day := (now - d)%Z in
    if ((Z.abs d <=? 999999999) && (-719162 <=? day) && (day <=? 2932896))%Z
    then Return day
    else Throw (Foreign "OverflowError");
  strftime := civil
|}.

Definition sample_response : json :=
  JDict [ ("pagination", JDict [("next", JStr "page-2")]);
          ("results",
           JList [ JDict [("usage_hours", JStr "12"); ("tag_project", JStr "A")];
                   JDict [("tag_project", JStr "B"); ("usage_hours", JInt 3)] ]);
          ("total_results", JStr "2") ].

Definition sample_http : Http := {|
  get_json _ _ := Return sample_response;
  repr_json _ := "..."
|}.

Definition sample_os : Os := {|
  getenv _ := None;
  check_output _ := Return (String "s" (String "3" (String "010"%char "")))
|}.

Definition sample_handler (query : string) : io (list (dict value)) :=
  Return sample_rows.

Definition full_request : Request :=
  Request_init (Some ["vendor_account_identifier%3D%3D933752197999"])
               (Some ["tag_project"]) (Some ["usage_hours"])
               (Some sample_mapping) 7.

Definition short_response : json :=
  JDict [ ("pagination", JNull);
          ("results", JList [JDict [("usage_hours", JStr "12")]]);
          ("total_results", JInt 3) ].

Definition short_http : Http := {|
  get_json _ _ := Return short_response;
  repr_json _ := "..."
|}.

Definition newline : ascii := "010"%char.
(* ===================================================================== *)
(** * Properties of the filter builder and of the type conversion *)
(* ===================================================================== *)

Section FilterBuilder.

Lemma append_cons (c : ascii) (s t : string) :
  String c s +:+ t = String c (s +:+ t).
Proof. reflexivity. Qed.

Lemma append_assoc (s t u : string) : (s +:+ t) +:+ u = s +:+ (t +:+ u).
Proof.
  induction s as [|c s IH]; [done|].
  by rewrite !append_cons, IH.
Qed.

(** The encoding works byte by byte: the parts of a filter are encoded
    independently of each other. *)
Lemma quote_app (s t : string) : quote (s +:+ t) = quote s +:+ quote t.
Proof.
  induction s as [|c s IH]; [done|].
  rewrite append_cons. cbn [quote].
  by rewrite IH, append_assoc.
Qed.



(** ** C8 *)


Example make_filter_unsupported :
  make_filter "cost" "~=" "10" = Raise UnsupportedOperatorError.
Proof. reflexivity. Qed.

Example make_filter_greater_or_equal :
  make_filter "cost" ">=" "10" = Ok "cost%3E%3D10".
Proof. reflexivity. Qed.

End FilterBuilder.

Section Conversion.
Context {T : Text}.



(** ** C5 *)


End Conversion.

(** The round trips of the specification, in the sample text layer. *)
Example convert_samples :
  let _ : Text := ascii_text in
  convert "integer" (PStr "42") = Ok (PInt 42) ∧
  convert "string" (PStr "east-1") = Ok (PStr "east-1") ∧
  convert "date" (PStr "2024-01-01") = Ok (PStr "2024-01-01") ∧
  convert "integer" (PStr "3.7") = Raise ValueError ∧
  convert "float" (PStr "east-1") = Raise ValueError ∧
  convert "unknown" (PStr "x") = Raise (UnsupportedTypeError "unknown").
Proof. by repeat split. Qed.


(* ===================================================================== *)
(** * Dictionaries and loops *)
(* ===================================================================== *)

Section Dict.
Context {V : Type}.
Implicit Types (d : dict V) (k : string) (v : V).

Lemma dict_get_set d k k' v :
  dict_get k' (dict_set k v d) = if decide (k' = k) then Some v else dict_get k' d.
Proof.
  induction d as [|[k0 v0] d IH]; simpl.
  - destruct (String.eqb_spec k' k); by case_decide.
  - destruct (String.eqb_spec k k0) as [->|Hne]; simpl.
    + destruct (String.eqb_spec k' k0); by case_decide.
    + destruct (String.eqb_spec k' k0) as [->|?]; [|done].
      by rewrite decide_False.
Qed.

Lemma dict_get_set_eq d k v : dict_get k (dict_set k v d) = Some v.
Proof. by rewrite dict_get_set, decide_True. Qed.

Lemma dict_get_set_ne d k k' v :
  k' ≠ k → dict_get k' (dict_set k v d) = dict_get k' d.
Proof. intros. by rewrite dict_get_set, decide_False. Qed.

Lemma dict_get_None d k : dict_get k d = None ↔ k ∉ keys d.
Proof.
  unfold keys. induction d as [|[k0 v0] d IH]; simpl.
  - split; [|done]. intros _. apply not_elem_of_nil.
  - rewrite not_elem_of_cons, <- IH.
    destruct (String.eqb_spec k k0) as [->|?]; [|tauto].
    split; [done | by intros [? _]].
Qed.

Lemma dict_get_is_Some d k : is_Some (dict_get k d) ↔ k ∈ keys d.
Proof.
  rewrite <- not_eq_None_Some, dict_get_None.
  destruct (decide (k ∈ keys d)); naive_solver.
Qed.

Lemma dict_get_elem_of d k v : dict_get k d = Some v → (k, v) ∈ d.
Proof.
  induction d as [|[k0 v0] d IH]; simpl; [done|].
  destruct (String.eqb_spec k k0) as [->|?].
  - intros [= ->]. left.
  - intros. right. auto.
Qed.

Lemma elem_of_dict_get d k v :
  NoDup (keys d) → (k, v) ∈ d → dict_get k d = Some v.
Proof.
  unfold keys. induction d as [|[k0 v0] d IH]; simpl.
  - intros _ Hin. by apply elem_of_nil in Hin.
  - intros [Hk0 Hd]%NoDup_cons [[= -> ->]|Hin]%elem_of_cons.
    + by rewrite String.eqb_refl.
    + destruct (String.eqb_spec k k0) as [->|?]; [|by auto].
      destruct Hk0. apply list_elem_of_fmap. by exists (k0, v).
Qed.

(** Assigning to a key the dictionary has keeps its keys; assigning to a
    new key appends the entry. *)
Lemma dict_set_new d k v : k ∉ keys d → dict_set k v d = d ++ [(k, v)].
Proof.
  unfold keys. induction d as [|[k0 v0] d IH]; simpl; [done|].
  intros [? ?]%not_elem_of_cons.
  destruct (String.eqb_spec k k0); [done|]. by rewrite IH.
Qed.

Lemma keys_dict_set_old d k v : k ∈ keys d → keys (dict_set k v d) = keys d.
Proof.
  unfold keys. induction d as [|[k0 v0] d IH]; simpl.
  - intros Hin. by apply elem_of_nil in Hin.
  - destruct (String.eqb_spec k k0) as [->|?]; [done|].
    intros [?|?]%elem_of_cons; [done|]. rewrite fmap_cons. f_equal. auto.
Qed.

Lemma elem_of_keys_dict_set d k k' v :
  k' ∈ keys (dict_set k v d) ↔ k' = k ∨ k' ∈ keys d.
Proof.
  rewrite <- !dict_get_is_Some, dict_get_set.
  case_decide as Hk; [|tauto].
  split; [by left | by eexists].
Qed.

Lemma NoDup_keys_dict_set d k v :
  NoDup (keys d) → NoDup (keys (dict_set k v d)).
Proof.
  intros Hd. destruct (decide (k ∈ keys d)).
  - by rewrite keys_dict_set_old.
  - rewrite dict_set_new by done. unfold keys in *.
    rewrite fmap_app. apply NoDup_app. repeat split; [done| |apply NoDup_singleton].
    by intros x ? ->%list_elem_of_singleton.
Qed.

End Dict.

Section Loops.
Context {A S : Type}.
Implicit Types (body : A → S → res S) (l : list A) (s : S).

Lemma for_each_app body l1 l2 s :
  for_each body (l1 ++ l2) s = (s' ← for_each body l1 s; for_each body l2 s').
Proof.
  revert s. induction l1 as [|x l1 IH]; intros s; simpl; [done|].
  destruct (body x s) as [s'|e]; simpl; [apply IH | done].
Qed.

(** A loop that returns has kept every invariant its body keeps. *)
Lemma for_each_invariant (P : S → Prop) body l s s' :
  (∀ x t t', x ∈ l → P t → body x t = Ok t' → P t') →
  P s → for_each body l s = Ok s' → P s'.
Proof.
  revert s. induction l as [|x l IH]; intros s Hbody Hs; simpl.
  - by intros [= <-].
  - destruct (body x s) as [t|e] eqn:Hx; simpl; [|done].
    apply IH.
    + intros y u u' ?. apply Hbody. by right.
    + eapply Hbody; [left | done..].
Qed.

End Loops.

Lemma bind_Ok {A B} (m : res A) (f : A → res B) (b : B) :
  m ≫= f = Ok b ↔ ∃ a, m = Ok a ∧ f a = Ok b.
Proof.
  destruct m as [a|e]; simpl.
  - split; [by exists a | by intros (? & [= <-] & ?)].
  - split; [done | by intros (? & ? & ?)].
Qed.

Lemma getattr_Ok {A} (attr : string) (slot : option A) (a : A) :
  getattr attr slot = Ok a ↔ slot = Some a.
Proof. destruct slot; simpl; naive_solver. Qed.

Lemma getitem_Ok {V} (d : dict V) (k : string) (v : V) :
  getitem d k = Ok v ↔ dict_get k d = Some v.
Proof. unfold getitem. destruct (dict_get k d); naive_solver. Qed.

(* ===================================================================== *)
(** * Properties of the result normaliser *)
(* ===================================================================== *)

Section Normalisation.
Context {T : Text}.
Implicit Types (self : Request) (ret out : columns) (types : dict string).
Implicit Types (mapping : dict string) (line : dict value).
Implicit Types (k n a : string) (names ms ds : list string).

Lemma occurrences_cons k n names :
  occurrences k (n :: names)
  = ((if decide (n = k) then 1 else 0) + occurrences k names)%nat.
Proof. unfold occurrences. rewrite filter_cons. by case_decide. Qed.

Lemma occurrences_app k (l1 l2 : list string) :
  occurrences k (l1 ++ l2) = (occurrences k l1 + occurrences k l2)%nat.
Proof. unfold occurrences. by rewrite filter_app, length_app. Qed.

Lemma occurrences_notin k names : k ∉ names → occurrences k names = 0%nat.
Proof.
  induction names as [|n names IH]; [done|].
  intros [? ?]%not_elem_of_cons. rewrite occurrences_cons, IH by done.
  by rewrite decide_False.
Qed.

Lemma occurrences_NoDup k names :
  NoDup names → k ∈ names → occurrences k names = 1%nat.
Proof.
  induction names as [|n names IH]; [by intros _ ?%elem_of_nil|].
  intros [Hn Hnames]%NoDup_cons Hk. rewrite occurrences_cons.
  case_decide as Hnk.
  - subst n. by rewrite occurrences_notin.
  - apply elem_of_cons in Hk as [->|Hk]; [done|]. by rewrite IH.
Qed.

(** ** The first loops: one empty column and one type per name *)

Lemma init_columns_spec measures names st st' :
  for_each (init_column measures) names st = Ok st' →
  NoDup (keys st.1) →
  NoDup (keys st'.1) ∧
  (∀ k, k ∈ keys st'.1 ↔ k ∈ keys st.1 ∨ k ∈ names) ∧
  (∀ k, k ∈ keys st.2 ∨ k ∈ names → k ∈ keys st'.2) ∧
  (∀ k c, dict_get k st'.1 = Some c → c = [] ∨ dict_get k st.1 = Some c).
Proof.
  revert st. induction names as [|n names IH]; intros [ret types]; simpl.
  - intros [= <-] Hnd. simpl. split; [done|]. split; [|split].
    + intros k. rewrite elem_of_nil. tauto.
    + intros k. rewrite elem_of_nil. tauto.
    + auto.
  - intros (st1 & Hinit & Hrest)%bind_Ok Hnd.
    unfold init_column in Hinit. simpl in Hinit.
    apply bind_Ok in Hinit as (tp & _ & [= <-]).
    apply IH in Hrest as (Hnd' & Hkeys & Htypes & Hcols); simpl in *;
      [|by apply NoDup_keys_dict_set].
    split; [done|]. split; [|split].
    + intros k. rewrite Hkeys, elem_of_keys_dict_set, elem_of_cons. tauto.
    + intros k Hk. apply Htypes. rewrite elem_of_keys_dict_set.
      rewrite elem_of_cons in Hk. tauto.
    + intros k c Hc. apply Hcols in Hc as [?|Hc]; [by left|].
      rewrite dict_get_set in Hc. case_decide; [left; congruence | by right].
Qed.

(** ** The loop over the rows *)

Lemma append_cell_Ok line types n ret ret' :
  append_cell line types n ret = Ok ret' →
  ∃ column cell,
    dict_get n ret = Some column ∧ ret' = dict_set n (column ++ [cell]) ret.
Proof.
  unfold append_cell.
  intros (column & Hcol%getitem_Ok & Hrest)%bind_Ok.
  apply bind_Ok in Hrest as (tp & _ & Hrest).
  apply bind_Ok in Hrest as (raw & _ & Hrest).
  apply bind_Ok in Hrest as (cell & _ & [= <-]).
  by exists column, cell.
Qed.

Lemma append_cells_spec line types names ret ret' :
  for_each (append_cell line types) names ret = Ok ret' →
  keys ret' = keys ret ∧
  ∀ k c, dict_get k ret = Some c →
    ∃ c', dict_get k ret' = Some c' ∧
          length c' = (length c + occurrences k names)%nat.
Proof.
  revert ret. induction names as [|n names IH]; intros ret; simpl.
  - intros [= <-]. split; [done|]. intros k c Hc. exists c.
    split; [done|]. unfold occurrences. simpl. lia.
  - destruct (append_cell line types n ret) as [ret1|e] eqn:Hcell; [|done].
    simpl. intros Hrest.
    apply append_cell_Ok in Hcell as (column & cell & Hcol & ->).
    apply IH in Hrest as [Hkeys Hlen]. split.
    + rewrite Hkeys. apply keys_dict_set_old, dict_get_is_Some. eauto.
    + intros k c Hc. rewrite occurrences_cons.
      destruct (decide (n = k)) as [->|Hne].
      * destruct (Hlen k (column ++ [cell])) as (c' & Hc' & Hl);
          [apply dict_get_set_eq|].
        exists c'. split; [done|].
        rewrite Hl, length_app. simpl. simplify_eq. lia.
      * destruct (Hlen k c) as (c' & Hc' & Hl);
          [by rewrite dict_get_set_ne|].
        exists c'. split; [done|]. lia.
Qed.

Lemma append_lines_spec ms ds types (request_result : list (dict value))
    ret ret' :
  for_each (append_line ms ds types) request_result ret = Ok ret' →
  keys ret' = keys ret ∧
  ∀ k c, dict_get k ret = Some c →
    ∃ c', dict_get k ret' = Some c' ∧
          length c' = (length c
                       + length request_result * occurrences k (ms ++ ds))%nat.
Proof.
  revert ret.
  induction request_result as [|line lines IH]; intros ret; simpl.
  - intros [= <-]. split; [done|]. intros k c Hc. exists c. split; [done|lia].
  - destruct (append_line ms ds types line ret) as [ret1|e] eqn:Hline; [|done].
    simpl. intros Hrest. unfold append_line in Hline.
    rewrite <- for_each_app in Hline.
    apply append_cells_spec in Hline as [Hkeys1 Hlen1].
    apply IH in Hrest as [Hkeys Hlen]. split; [congruence|].
    intros k c Hc.
    destruct (Hlen1 k c Hc) as (c1 & Hc1 & Hl1).
    destruct (Hlen k c1 Hc1) as (c' & Hc' & Hl).
    exists c'. split; [done|]. lia.
Qed.

(** The typed columns: one column per requested name, each holding, for
    every row, one cell per occurrence of its name in the request. *)
Lemma typed_columns_spec self request_result measures ret :
  typed_columns self request_result measures = Ok ret →
  ∃ ms ds,
    metrics self = Some ms ∧ dimensions self = Some ds ∧
    NoDup (keys ret) ∧
    (∀ k, k ∈ keys ret ↔ k ∈ ms ++ ds) ∧
    ∀ k c, dict_get k ret = Some c →
      length c = (length request_result * occurrences k (ms ++ ds))%nat.
Proof.
  unfold typed_columns.
  intros (ms & Hms%getattr_Ok & Hrest)%bind_Ok.
  apply bind_Ok in Hrest as (st1 & Hinit1 & Hrest).
  apply bind_Ok in Hrest as (ds & Hds%getattr_Ok & Hrest).
  apply bind_Ok in Hrest as (st2 & Hinit2 & Hrows).
  exists ms, ds. split; [done|]. split; [done|].
  apply init_columns_spec in Hinit1 as (Hnd1 & Hk1 & _ & Hc1);
    [|apply NoDup_nil_2].
  apply init_columns_spec in Hinit2 as (Hnd2 & Hk2 & _ & Hc2); [|done].
  apply append_lines_spec in Hrows as [Hkeys Hlen].
  rewrite Hkeys. split; [done|]. split.
  - intros k. rewrite Hk2, Hk1, elem_of_app. simpl.
    rewrite elem_of_nil. tauto.
  - intros k c Hc.
    assert (is_Some (dict_get k st2.1)) as [c0 Hc0].
    { apply dict_get_is_Some. rewrite <- Hkeys.
      apply dict_get_is_Some. eauto. }
    destruct (Hlen k c0 Hc0) as (c' & Hc' & Hl).
    assert (c0 = []) as ->.
    { apply Hc2 in Hc0 as [?|Hc0]; [done|].
      by apply Hc1 in Hc0 as [?|?]. }
    simplify_eq. by rewrite Hl.
Qed.

(** ** The renaming *)

Lemma elem_of_dict_set {V} (d : dict V) k k' (v v' : V) :
  (k', v') ∈ dict_set k v d → (k', v') = (k, v) ∨ (k', v') ∈ d.
Proof.
  induction d as [|[k0 v0] d IH]; simpl.
  - intros ?%list_elem_of_singleton. by left.
  - destruct (String.eqb_spec k k0) as [->|?].
    + intros [?|?]%elem_of_cons; [by left | right; by right].
    + intros [->|Hin]%elem_of_cons; [right; left|].
      apply IH in Hin as [?|?]; [by left | right; by right].
Qed.

Lemma rename_columns_from mapping ret acc out :
  for_each (rename_column mapping) ret acc = Ok out →
  ∀ a c, (a, c) ∈ out → (a, c) ∈ acc ∨ ∃ k, (k, c) ∈ ret.
Proof.
  revert acc. induction ret as [|[k0 c0] ret IH]; intros acc; simpl.
  - intros [= <-] a c ?. by left.
  - intros (acc1 & Hstep & Hrest)%bind_Ok a c Hin.
    unfold rename_column in Hstep. simpl in Hstep.
    apply bind_Ok in Hstep as (a0 & _ & [= <-]).
    destruct (IH _ Hrest a c Hin) as [Hacc|[k Hk]].
    + apply elem_of_dict_set in Hacc as [[= -> ->]|?]; [|by left].
      right. exists k0. left.
    + right. exists k. by right.
Qed.

Lemma keys_prod_map {V} (f : string → string) (d : dict V) :
  keys (prod_map f id <$> d) = f <$> keys d.
Proof.
  unfold keys. induction d as [|[k v] d IH]; [done|].
  rewrite !fmap_cons. simpl. by rewrite IH.
Qed.

Lemma rename_column_Some mapping k (c : list value) acc a :
  dict_get k mapping = Some a →
  rename_column mapping (k, c) acc = Ok (dict_set a c acc).
Proof. unfold rename_column, getitem. simpl. by intros ->. Qed.

Lemma rename_column_None mapping k (c : list value) acc :
  dict_get k mapping = None →
  rename_column mapping (k, c) acc = Raise (KeyError k).
Proof. unfold rename_column, getitem. simpl. by intros ->. Qed.

Lemma rename_complete mapping ret acc :
  (∀ k, k ∈ keys ret → is_Some (dict_get k mapping)) →
  NoDup (keys acc ++ (alias mapping <$> keys ret)) →
  for_each (rename_column mapping) ret acc
  = Ok (acc ++ (prod_map (alias mapping) id <$> ret)).
Proof.
  revert acc. induction ret as [|[k0 c0] ret IH]; intros acc Hall Hnd; simpl.
  - by rewrite app_nil_r.
  - destruct (Hall k0) as [a0 Ha0]; [left|].
    rewrite (rename_column_Some _ _ _ _ _ Ha0). simpl.
    assert (alias mapping k0 = a0) as Halias by (unfold alias; by rewrite Ha0).
    unfold keys in Hnd. rewrite fmap_cons in Hnd. simpl in Hnd.
    rewrite Halias in Hnd.
    rewrite dict_set_new.
    2:{ apply NoDup_app in Hnd as (_ & Hnotin & _).
        intros Hin. apply (Hnotin a0 Hin). left. }
    rewrite IH.
    + rewrite <- app_assoc. simpl. by rewrite Halias.
    + intros k Hk. apply Hall. by right.
    + unfold keys. rewrite fmap_app, <- app_assoc. done.
Qed.

Lemma rename_missing mapping ret acc :
  (∃ k, k ∈ keys ret ∧ dict_get k mapping = None) →
  ∃ k, k ∈ keys ret ∧ dict_get k mapping = None ∧
       for_each (rename_column mapping) ret acc = Raise (KeyError k).
Proof.
  revert acc. induction ret as [|[k0 c0] ret IH]; intros acc (k & Hk & Hnone).
  - by apply elem_of_nil in Hk.
  - simpl. destruct (dict_get k0 mapping) as [a0|] eqn:Hk0.
    + rewrite (rename_column_Some _ _ _ _ _ Hk0). simpl.
      apply elem_of_cons in Hk as [Hk|Hk]; [simpl in Hk; congruence|].
      destruct (IH (dict_set a0 c0 acc)) as (k' & ? & ? & ->); [by eauto|].
      exists k'. split; [by right | done].
    + rewrite (rename_column_None _ _ _ _ Hk0). simpl.
      exists k0. split; [left | done].
Qed.

(** The whole normalisation returns only when the typed columns were built
    and the attribute [name_mapping] exists. *)
Lemma request_result_to_dict_Ok self request_result measures out :
  _request_result_to_dict self request_result measures = Ok out →
  ∃ ret mapping,
    typed_columns self request_result measures = Ok ret ∧
    name_mapping self = Some mapping ∧
    (mapping = [] ∧ out = ret ∨ mapping ≠ [] ∧ rename mapping ret = Ok out).
Proof.
  unfold _request_result_to_dict.
  intros (ret & Hret & Hrest)%bind_Ok.
  apply bind_Ok in Hrest as (mapping & Hmap%getattr_Ok & Hout).
  exists ret, mapping. split; [done|]. split; [done|].
  destruct mapping; [left; by simplify_eq | by right].
Qed.

Lemma output_keys_spec self ms ds :
  metrics self = Some ms → dimensions self = Some ds →
  output_keys self = ms ++ ds.
Proof. unfold output_keys. by intros -> ->. Qed.

End Normalisation.

Section NormaliserClaims.
Context {T : Text}.
Implicit Types (self : Request) (ret out : columns).
Implicit Types (mapping : dict string).

(** ** C6 *)

(** C6 (the code departs from it). A request constructed without a
    mapping has no [name_mapping] attribute: [__init__] assigns it only for a
    truthy argument and the class gives it no default.  Normalisation then
    never returns: once the typed columns are built, the test
    [if self.name_mapping] raises [AttributeError], whatever the rows. *)
Theorem request_without_mapping_raises
    (fs ds ms : option (list string)) (days : Z)
    (request_result : list (dict value)) (measures : list measure) :
  let self := Request_init fs ds ms None days in
  fails (_request_result_to_dict self request_result measures) ∧
  (succeeds (typed_columns self request_result measures) →
   _request_result_to_dict self request_result measures
   = Raise (AttributeError "name_mapping")).
Proof.
  intros self. unfold _request_result_to_dict, fails, succeeds.
  destruct (typed_columns self request_result measures) as [ret|e]; simpl.
  - split; [by eexists | done].
  - split; [by eexists | by intros [? ?]].
Qed.

(** The same happens for an empty mapping, which is falsy too. *)
Lemma request_with_empty_mapping_raises
    (fs ds ms : option (list string)) (days : Z)
    (request_result : list (dict value)) (measures : list measure) :
  fails (_request_result_to_dict (Request_init fs ds ms (Some []) days)
                                 request_result measures).
Proof.
  unfold _request_result_to_dict, fails.
  destruct (typed_columns _ request_result measures) as [ret|e]; simpl;
    by eexists.
Qed.

(** ** C9 *)

(** Every column of a normalised report is a column of the typed columns. *)
Lemma request_result_to_dict_columns self request_result measures out :
  _request_result_to_dict self request_result measures = Ok out →
  ∃ ret, typed_columns self request_result measures = Ok ret ∧
         ∀ a c, (a, c) ∈ out → ∃ k, (k, c) ∈ ret.
Proof.
  intros (ret & mapping & Hret & _ & Hout)%request_result_to_dict_Ok.
  exists ret. split; [done|]. intros a c Hin.
  destruct Hout as [[_ ->]|[_ Hren]]; [by exists a|].
  unfold rename in Hren.
  destruct (rename_columns_from _ _ _ _ Hren a c Hin) as [?%elem_of_nil|?];
    done.
Qed.

(** In general a column holds, for every row, one cell per occurrence of
    its name among the requested metrics and dimensions. *)
Lemma columns_length self request_result measures out a c :
  _request_result_to_dict self request_result measures = Ok out →
  (a, c) ∈ out →
  ∃ k, k ∈ output_keys self ∧
       length c = (length request_result * occurrences k (output_keys self))%nat.
Proof.
  intros (ret & Hret & Hcols)%request_result_to_dict_columns Hin.
  destruct (Hcols a c Hin) as [k Hk].
  apply typed_columns_spec in Hret as (ms & ds & Hms & Hds & Hnd & Hkeys & Hlen).
  rewrite (output_keys_spec _ _ _ Hms Hds).
  exists k. split.
  - apply Hkeys. apply list_elem_of_fmap. by exists (k, c).
  - apply Hlen. by apply elem_of_dict_get.
Qed.

(** C9 (amended). When no name is requested twice, among the metrics and
    the dimensions together, every column of the report that normalisation
    returns has exactly one entry per source row; all columns then have the
    same length. *)
Theorem columns_one_entry_per_row self
    (request_result : list (dict value)) (measures : list measure) out :
  NoDup (output_keys self) →
  _request_result_to_dict self request_result measures = Ok out →
  ∀ a c, (a, c) ∈ out → length c = length request_result.
Proof.
  intros Hnd Hout a c Hin.
  destruct (columns_length _ _ _ _ _ _ Hout Hin) as (k & Hk & ->).
  rewrite occurrences_NoDup by done. lia.
Qed.

(** ** C7 *)

(** C7 (amended). With a non-empty mapping: if a requested name is absent
    from the mapping, normalisation fails, and fails with [KeyError] on such a
    name once the rows are converted; if the mapping has every requested name
    and gives distinct names distinct aliases, the report is the typed
    columns, in their order, each under its alias and with its cells
    unchanged. *)
Theorem mapping_completeness self
    (request_result : list (dict value)) (measures : list measure) mapping :
  name_mapping self = Some mapping →
  mapping ≠ [] →
  let result := _request_result_to_dict self request_result measures in
  let unmapped k := k ∈ output_keys self ∧ dict_get k mapping = None in
  ((∃ k, unmapped k) →
     fails result ∧
     (succeeds (typed_columns self request_result measures) →
      ∃ k, unmapped k ∧ result = Raise (KeyError k))) ∧
  ((∀ k, k ∈ output_keys self → is_Some (dict_get k mapping)) →
   (∀ k k', k ∈ output_keys self → k' ∈ output_keys self →
            alias mapping k = alias mapping k' → k = k') →
   ∀ ret, typed_columns self request_result measures = Ok ret →
     result = Ok (prod_map (alias mapping) id <$> ret) ∧
     ∀ k c, dict_get k ret = Some c →
            dict_get (alias mapping k) (prod_map (alias mapping) id <$> ret)
            = Some c).
Proof.
  intros Hmap Hne result unmapped. subst result unmapped.
  unfold _request_result_to_dict. rewrite Hmap. simpl.
  destruct mapping as [|m0 mapping']; [done|].
  set (mapping := m0 :: mapping') in *. clearbody mapping.
  destruct (typed_columns self request_result measures) as [ret|e] eqn:Hret;
    simpl.
  - apply typed_columns_spec in Hret
      as (ms & ds & Hms & Hds & Hnd & Hkeys & _).
    rewrite (output_keys_spec _ _ _ Hms Hds). split.
    + intros (k & Hk & Hnone).
      destruct (rename_missing mapping ret []) as (k' & Hk' & Hnone' & Hres).
      { exists k. by rewrite Hkeys. }
      unfold rename. rewrite Hres. split; [by eexists|].
      intros _. exists k'. by rewrite <- Hkeys.
    + intros Hall Hinj ret' [= <-].
      assert (NoDup (alias mapping <$> keys ret)) as Hnd'.
      { apply NoDup_fmap_2_strong; [|done].
        intros k k' ?%Hkeys ?%Hkeys. by apply Hinj. }
      unfold rename. rewrite rename_complete; simpl; [|by intros k ?%Hkeys; auto|done].
      split; [done|]. intros k c Hc.
      apply elem_of_dict_get.
      * by rewrite keys_prod_map.
      * apply list_elem_of_fmap. exists (k, c).
        split; [done | by apply dict_get_elem_of].
  - split.
    + intros _. split; [by eexists | by intros [? ?]].
    + by intros _ _ ret' ?.
Qed.

End NormaliserClaims.

(** ** The normaliser on the sample data *)

(** C6, at a concrete request: dimensions and metrics, no mapping. *)
Example request_without_mapping_sample :
  let _ : Text := ascii_text in
  let self :=
    Request_init None (Some ["tag_project"]) (Some ["usage_hours"]) None 7 in
  typed_columns self sample_rows sample_measures
  = Ok [("usage_hours", [PInt 12; PInt 3]);
        ("tag_project", [PStr "A"; PStr "B"])] ∧
  _request_result_to_dict self sample_rows sample_measures
  = Raise (AttributeError "name_mapping").
Proof. split; reflexivity. Qed.

(** C9, as stated, fails: a metric requested twice gets two cells per row,
    so the columns of the report differ in length. *)
Lemma duplicated_metric_doubles_column :
  let _ : Text := ascii_text in
  let self :=
    Request_init None (Some ["tag_project"])
                 (Some ["usage_hours"; "usage_hours"])
                 (Some sample_mapping) 7 in
  let out :=
    [("Usage_Hours", [PInt 12; PInt 12; PInt 3; PInt 3]);
     ("Project", [PStr "A"; PStr "B"])] in
  _request_result_to_dict self sample_rows sample_measures = Ok out ∧
  ¬ (∀ a c, (a, c) ∈ out → length c = length sample_rows).
Proof.
  intros T self out. split; [reflexivity|].
  intros Hall.
  specialize (Hall "Usage_Hours" [PInt 12; PInt 12; PInt 3; PInt 3]).
  discriminate Hall. left.
Qed.

Lemma columns_one_entry_per_row_witness :
  length [PInt 12; PInt 3] = length sample_rows.
Proof.
  apply (columns_one_entry_per_row (T:=ascii_text)
           sample_request sample_rows sample_measures
           [("Usage_Hours", [PInt 12; PInt 3]);
            ("Project", [PStr "A"; PStr "B"])]) with (a := "Usage_Hours").
  - apply (bool_decide_unpack _). vm_compute. exact I.
  - vm_compute. reflexivity.
  - apply (bool_decide_unpack _). vm_compute. exact I.
Defined.

(** C7, as stated, fails: the mapping has every requested name, yet the
    column of usage_hours is not in the report, because tag_project has the
    same alias and is assigned after it. *)
Lemma colliding_aliases_drop_a_column :
  let _ : Text := ascii_text in
  let mapping := [("tag_project", "Name"); ("usage_hours", "Name")] in
  let self :=
    Request_init None (Some ["tag_project"]) (Some ["usage_hours"])
                 (Some mapping) 7 in
  let out := [("Name", [PStr "A"; PStr "B"])] in
  (∀ k, k ∈ output_keys self → is_Some (dict_get k mapping)) ∧
  typed_columns self sample_rows sample_measures
  = Ok [("usage_hours", [PInt 12; PInt 3]);
        ("tag_project", [PStr "A"; PStr "B"])] ∧
  _request_result_to_dict self sample_rows sample_measures = Ok out ∧
  dict_get (alias mapping "usage_hours") out ≠ Some [PInt 12; PInt 3].
Proof.
  intros T mapping self out. split; [|by repeat split].
  intros k [->|[->|[]%elem_of_nil]%elem_of_cons]%elem_of_cons; by eexists.
Qed.

Lemma mapping_completeness_witness :
  _request_result_to_dict (T:=ascii_text)
    sample_request sample_rows sample_measures
  = Ok [("Usage_Hours", [PInt 12; PInt 3]);
        ("Project", [PStr "A"; PStr "B"])].
Proof.
  destruct (mapping_completeness (T:=ascii_text)
              sample_request sample_rows sample_measures sample_mapping)
    as [_ Hrenamed].
  - reflexivity.
  - discriminate.
  - destruct (Hrenamed) with
      (ret := [("usage_hours", [PInt 12; PInt 3]);
               ("tag_project", [PStr "A"; PStr "B"])]) as [Hres _].
    + intros k Hk. apply (bool_decide_unpack _).
      vm_compute in Hk.
      apply elem_of_cons in Hk as [->|Hk]; [exact I|].
      apply elem_of_cons in Hk as [->|Hk]; [exact I|].
      by apply elem_of_nil in Hk.
    + intros k k' Hk Hk'. vm_compute in Hk, Hk'.
      apply elem_of_cons in Hk as [->|Hk];
        [|apply elem_of_cons in Hk as [->|Hk]; [|by apply elem_of_nil in Hk]];
        (apply elem_of_cons in Hk' as [->|Hk'];
         [|apply elem_of_cons in Hk' as [->|Hk'];
           [|by apply elem_of_nil in Hk']]);
        intros Heq; try reflexivity; vm_compute in Heq; discriminate Heq.
    + reflexivity.
    + exact Hres.
Defined.

(* ===================================================================== *)
(** * Properties of the frames of [pr_costs] *)
(* ===================================================================== *)

Section Frames.
Local Open Scope Qc_scope.
Implicit Types (k : key) (df : list (key * (fnum * fnum))).
Implicit Types (groups : gmap key (fnum * fnum)).
Implicit Types (total : list Total.row) (rogue : list Rogue.row).

(** ** Arithmetic of the cells *)



Lemma Qc_sum_app (l1 l2 : list Qc) : Qc_sum (l1 ++ l2) = Qc_sum l1 + Qc_sum l2.
Proof.
  induction l1 as [|x l1 IH]; simpl; [by rewrite Qcplus_0_l|].
  rewrite IH. ring.
Qed.

Lemma foldl_add_cells_fin {A} (c h : A → Qc) (l : list A) (a b : Qc) :
  foldl add_cells (Fin a, Fin b) ((λ r, (Fin (c r), Fin (h r))) <$> l)
  = (Fin (a + Qc_sum (c <$> l)), Fin (b + Qc_sum (h <$> l))).
Proof.
  revert a b. induction l as [|r l IH]; intros a b; simpl.
  - by rewrite !Qcplus_0_r.
  - unfold add_cells at 2. simpl. rewrite IH. by rewrite !Qcplus_assoc.
Qed.

(** ** Grouping *)

Lemma foldl_group_lookup df groups k :
  foldl group_step groups df !! k
  = match filter (λ r, r.1 = k) df with
    | [] => groups !! k
    | rows =>
        Some (foldl add_cells (default (Fin 0, Fin 0) (groups !! k)) rows.*2)
    end.
Proof.
  revert groups. induction df as [|r df IH]; intros groups; [done|].
  cbn [foldl]. rewrite IH, filter_cons. unfold group_step.
  case_decide as Hk.
  - rewrite Hk, lookup_insert_eq. simpl.
    by destruct (filter (λ r, r.1 = k) df).
  - by rewrite lookup_insert_ne.
Qed.

Lemma filter_nil_key {A} (kf : A → key) (l : list A) k :
  filter (λ r, kf r = k) l = [] ↔ k ∉ kf <$> l.
Proof.
  induction l as [|r l IH]; [by split; [intros; apply not_elem_of_nil|]|].
  rewrite fmap_cons, not_elem_of_cons, filter_cons.
  case_decide as Hr.
  - split; [done | intros [Hne _]; by destruct Hne].
  - rewrite IH. split; [intros; split; [congruence | done] | by intros [_ ?]].
Qed.

(** A group has an entry in the grouped frame exactly when the frame has a
    row of its key, and the entry is the sum of these rows in their order. *)
Lemma group_by_and_sum_lookup df k :
  group_by_and_sum df !! k
  = if decide (k ∈ df.*1)
    then Some (foldl add_cells (Fin 0, Fin 0) (filter (λ r, r.1 = k) df).*2)
    else None.
Proof.
  unfold group_by_and_sum. rewrite foldl_group_lookup, lookup_empty.
  destruct (filter (λ r, r.1 = k) df) as [|r rows] eqn:Hrows.
  - apply (filter_nil_key fst) in Hrows. by rewrite decide_False.
  - rewrite decide_True; [done|].
    destruct (decide (k ∈ df.*1)) as [|Hk]; [done|].
    apply (filter_nil_key fst) in Hk. congruence.
Qed.

Lemma filter_key_fmap {A} (kf : A → key) (vf : A → fnum * fnum)
    (l : list A) k :
  filter (λ r : key * (fnum * fnum), r.1 = k) ((λ r, (kf r, vf r)) <$> l)
  = (λ r, (kf r, vf r)) <$> filter (λ r, kf r = k) l.
Proof.
  induction l as [|r l IH]; [done|].
  rewrite fmap_cons, !filter_cons. simpl.
  case_decide; by rewrite IH.
Qed.

Lemma frame_keys {A} (kf : A → key) (vf : A → fnum * fnum) (l : list A) :
  ((λ r, (kf r, vf r)) <$> l).*1 = kf <$> l.
Proof. induction l as [|r l IH]; [done|]. rewrite !fmap_cons. by f_equal. Qed.

Lemma frame_values {A} (kf : A → key) (vf : A → fnum * fnum) (l : list A) :
  ((λ r, (kf r, vf r)) <$> l).*2 = vf <$> l.
Proof. induction l as [|r l IH]; [done|]. rewrite !fmap_cons. by f_equal. Qed.

(** The grouped sums of a frame whose cells are all finite. *)
Lemma group_by_and_sum_fin {A} (kf : A → key) (c h : A → Qc) (l : list A) k :
  group_by_and_sum ((λ r, (kf r, (Fin (c r), Fin (h r)))) <$> l) !! k
  = if decide (k ∈ kf <$> l)
    then Some (Fin (Qc_sum (c <$> filter (λ r, kf r = k) l)),
               Fin (Qc_sum (h <$> filter (λ r, kf r = k) l)))
    else None.
Proof.
  rewrite group_by_and_sum_lookup.
  rewrite (frame_keys kf (λ r, (Fin (c r), Fin (h r)))).
  case_decide; [|done].
  rewrite (filter_key_fmap kf (λ r, (Fin (c r), Fin (h r)))).
  rewrite (frame_values kf (λ r, (Fin (c r), Fin (h r)))).
  by rewrite foldl_add_cells_fin, !Qcplus_0_l.
Qed.

End Frames.

Section Attribution.
Local Open Scope Qc_scope.
Implicit Types (k : key) (total : list Total.row) (rogue : list Rogue.row).
Implicit Types (row : Costs.row).

(** ** The report, key by key *)

Lemma costs_table_lookup total rogue k :
  costs_table total rogue !! k
  = net <$> (fill_rogue <$>
      concat_row (group_by_and_sum (total_frame total) !! k)
                 (group_by_and_sum (adjust <$> rogue) !! k)).
Proof.
  unfold costs_table, concat. rewrite !lookup_fmap, lookup_merge.
  by destruct (group_by_and_sum (total_frame total) !! k),
              (group_by_and_sum (adjust <$> rogue) !! k).
Qed.

(** The report has one row per key of the frame it sorts. *)
Lemma elem_of_pr_costs total rogue k row :
  (k, row) ∈ pr_costs total rogue ↔ costs_table total rogue !! k = Some row.
Proof.
  unfold pr_costs, sort_values.
  rewrite merge_sort_Permutation. apply elem_of_map_to_list.
Qed.

Lemma pr_costs_one_row_per_key total rogue : NoDup (pr_costs total rogue).*1.
Proof.
  unfold pr_costs, sort_values.
  rewrite merge_sort_Permutation. apply NoDup_fst_map_to_list.
Qed.

Lemma total_group total k :
  group_by_and_sum (total_frame total) !! k
  = if decide (k ∈ total_key <$> total)
    then Some (Fin (Qc_sum (Total.Cost <$> total_of k total)),
               Fin (Qc_sum (Total.Usage_Hours <$> total_of k total)))
    else None.
Proof. apply (group_by_and_sum_fin total_key). Qed.

Lemma adjust_key (r : Rogue.row) : (adjust r).1 = rogue_key r.
Proof. done. Qed.

Lemma adjust_keys rogue : (adjust <$> rogue).*1 = rogue_key <$> rogue.
Proof. induction rogue as [|r rogue IH]; [done|]. rewrite !fmap_cons. by f_equal. Qed.

Lemma over_threshold_nonzero (r : Rogue.row) :
  over_threshold r → Rogue.Rogue_Usage_Hours r ≠ 0.
Proof. unfold over_threshold. intros Hle Hz. rewrite Hz in Hle. by apply Hle. Qed.

(** On a resource over the threshold the rewriting of lines 146-149 is the
    arithmetic of the specification, and its results are finite. *)
Lemma adjust_over_threshold (r : Rogue.row) :
  Rogue.Rogue_Usage_Hours r ≠ 0 →
  adjust r = (rogue_key r, (Fin (adjusted_cost r), Fin (adjusted_hours r))).
Proof.
  intros Hnz. unfold adjust, fdiv. by rewrite decide_False.
Qed.

Lemma rogue_group rogue k :
  Forall over_threshold rogue →
  group_by_and_sum (adjust <$> rogue) !! k
  = if decide (k ∈ rogue_key <$> rogue)
    then Some (Fin (Qc_sum (adjusted_cost <$> rogue_of k rogue)),
               Fin (Qc_sum (adjusted_hours <$> rogue_of k rogue)))
    else None.
Proof.
  intros Hall.
  rewrite (Forall_fmap_ext_1 adjust
    (λ r, (rogue_key r, (Fin (adjusted_cost r), Fin (adjusted_hours r)))));
    [apply (group_by_and_sum_fin rogue_key)|].
  eapply Forall_impl; [done|]. intros r Hr.
  by apply adjust_over_threshold, over_threshold_nonzero.
Qed.

Lemma rogue_group_None rogue k :
  k ∉ rogue_key <$> rogue → group_by_and_sum (adjust <$> rogue) !! k = None.
Proof.
  intros Hk. rewrite group_by_and_sum_lookup, adjust_keys.
  by rewrite decide_False.
Qed.

(** ** C1 *)


(** ** C2 *)

(** C2. For a rogue report whose resources are over the four-hour
    threshold, the rogue figures of every group of the final report are the
    sums, over the resources of the group, of the figures adjusted resource
    by resource: [c - (c / h) * 4] and [h - 4]. *)
Theorem rogue_adjusted_per_resource total rogue k :
  Forall over_threshold rogue →
  k ∈ rogue_key <$> rogue →
  (∀ r, r ∈ rogue →
     adjust r = (rogue_key r, (Fin (adjusted_cost r), Fin (adjusted_hours r)))) ∧
  ∃ row,
    (k, row) ∈ pr_costs total rogue ∧
    Costs.Rogue_Cost row = Fin (Qc_sum (adjusted_cost <$> rogue_of k rogue)) ∧
    Costs.Rogue_Usage_Hours row
    = Fin (Qc_sum (adjusted_hours <$> rogue_of k rogue)).
Proof.
  intros Hrogue Hk. split.
  - intros r Hr. apply adjust_over_threshold, over_threshold_nonzero.
    by eapply Forall_forall in Hrogue.
  - setoid_rewrite elem_of_pr_costs.
    rewrite costs_table_lookup, total_group, rogue_group by done.
    rewrite (decide_True (P := k ∈ rogue_key <$> rogue)) by done.
    case_decide; simpl; eexists; (split; [done|]); by simpl.
Qed.

(** ** C4 *)

(** C4. A (Project, Branch) of the total report that no rogue row has is
    in the final report, with Rogue_Cost and Rogue_Usage_Hours equal to 0 and
    with Cost and Usage_Hours equal to the sums of the total report. *)
Theorem no_rogue_fill total rogue k :
  k ∈ total_key <$> total →
  k ∉ rogue_key <$> rogue →
  ∃ row,
    (k, row) ∈ pr_costs total rogue ∧
    Costs.Rogue_Cost row = Fin 0 ∧
    Costs.Rogue_Usage_Hours row = Fin 0 ∧
    Costs.Cost row = Fin (Qc_sum (Total.Cost <$> total_of k total)) ∧
    Costs.Usage_Hours row
    = Fin (Qc_sum (Total.Usage_Hours <$> total_of k total)).
Proof.
  intros Hk Hno. setoid_rewrite elem_of_pr_costs.
  rewrite costs_table_lookup, total_group, rogue_group_None by done.
  rewrite decide_True by done. simpl.
  eexists. split; [done|]. simpl.
  repeat split; f_equal; ring.
Qed.

End Attribution.

Section Boundary.
Local Open Scope Qc_scope.
Implicit Types (k : key) (total : list Total.row) (rogue : list Rogue.row).
Implicit Types (df : list (key * (fnum * fnum))).

(** ** C3 *)





End Boundary.

Section SortOrder.
Implicit Types (k : key) (total : list Total.row) (rogue : list Rogue.row).

(** ** C10 *)

#[local] Instance sort_le_total : Total sort_le.
Proof.
  intros [a| | |] [b| | |]; simpl; auto.
  destruct (total Qcle a b); auto.
Qed.

#[local] Instance by_cost_total : Total by_cost.
Proof. intros a b. apply sort_le_total. Qed.





End SortOrder.

(** ** The attribution on the sample reports *)

(** The end-to-end scenario of the specification. *)
Example pr_costs_end_to_end :
  pr_costs [Total.Row "A" "X" (Qc_of_Z 100) (Qc_of_Z 50)]
           [Rogue.Row "A" "X" "r1" (Qc_of_Z 20) (Qc_of_Z 10)]
  = [(("A", "X"),
      Costs.Row (Fin (Qc_of_Z 88)) (Fin (Qc_of_Z 44))
                (Fin (Qc_of_Z 12)) (Fin (Qc_of_Z 6)))].
Proof. apply (bool_decide_unpack _). by vm_compute. Qed.

(** The credit of four hours is given to each resource: two resources of
    one group at 20 for 10 hours and 30 for 4 hours leave 12 + 0 of rogue
    cost and 6 + 0 rogue hours, not 50 - (50 / 14) * 4 and 10. *)
Example pr_costs_sample :
  pr_costs sample_total sample_rogue
  = [(("B", "Y"),
      Costs.Row (Fin (Qc_of_Z 5)) (Fin (Qc_of_Z 10)) (Fin 0%Qc) (Fin 0%Qc));
     (("A", "X"),
      Costs.Row (Fin (Qc_of_Z 98)) (Fin (Qc_of_Z 47))
                (Fin (Qc_of_Z 12)) (Fin (Qc_of_Z 6)))].
Proof. apply (bool_decide_unpack _). by vm_compute. Qed.

(** Why the threshold of the rogue query matters: a resource of zero usage
    hours has an infinite hourly rate, its group gets an infinite rogue cost
    and an infinite cost of the opposite sign, and their sum is undefined. *)
Example zero_hours_resource :
  snd <$> pr_costs [Total.Row "A" "X" (Qc_of_Z 100) (Qc_of_Z 50)]
                   [Rogue.Row "A" "X" "r1" (Qc_of_Z 5) 0%Qc]
  = [Costs.Row PInf (Fin (Qc_of_Z 54)) NInf (Fin (Qc_of_Z (-4)))] ∧
  fadd PInf NInf = NaN.
Proof. split; [|done]. apply (bool_decide_unpack _). by vm_compute. Qed.


Lemma rogue_adjusted_per_resource_witness :
  (∀ r, r ∈ sample_rogue →
     adjust r = (rogue_key r, (Fin (adjusted_cost r), Fin (adjusted_hours r)))) ∧
  ∃ row,
    (("A", "X"), row) ∈ pr_costs sample_total sample_rogue ∧
    Costs.Rogue_Cost row
    = Fin (Qc_sum (adjusted_cost <$> rogue_of ("A", "X") sample_rogue)) ∧
    Costs.Rogue_Usage_Hours row
    = Fin (Qc_sum (adjusted_hours <$> rogue_of ("A", "X") sample_rogue)).
Proof.
  apply (rogue_adjusted_per_resource sample_total sample_rogue ("A", "X")).
  - apply (bool_decide_unpack _). by vm_compute.
  - apply (bool_decide_unpack _). by vm_compute.
Defined.


Lemma no_rogue_fill_witness :
  ∃ row,
    (("B", "Y"), row) ∈ pr_costs sample_total sample_rogue ∧
    Costs.Rogue_Cost row = Fin 0%Qc ∧
    Costs.Rogue_Usage_Hours row = Fin 0%Qc ∧
    Costs.Cost row
    = Fin (Qc_sum (Total.Cost <$> total_of ("B", "Y") sample_total)) ∧
    Costs.Usage_Hours row
    = Fin (Qc_sum (Total.Usage_Hours <$> total_of ("B", "Y") sample_total)).
Proof.
  apply (no_rogue_fill sample_total sample_rogue ("B", "Y")).
  - apply (bool_decide_unpack _). by vm_compute.
  - apply (bool_decide_unpack _). by vm_compute.
Defined.



(* ===================================================================== *)
(** * Further properties of [src/cloudability.py] *)
(* ===================================================================== *)

Section Catalog.
Implicit Types (measures : list measure) (l n : string).

(** ** The measure catalog *)

(** X1. [name_from_label] returns the name of the first measure that has
    the label, and fails with the message that names the label exactly when
    no measure has it. *)
Theorem name_from_label_first measures l :
  match name_from_label measures l with
  | Ok n =>
      ∃ before m after,
        measures = before ++ m :: after ∧
        Forall (λ m', label m' ≠ l) before ∧ label m = l ∧ name m = n
  | Raise e =>
      e = RuntimeError ("Label " +:+ l +:+ " not found in measures.json") ∧
      Forall (λ m, label m ≠ l) measures
  end.
Proof.
  induction measures as [|m measures IH]; simpl; [done|].
  destruct (String.eqb_spec (label m) l) as [Hl|Hl].
  - by exists [], m, measures.
  - destruct (name_from_label measures l) as [n|e].
    + destruct IH as (before & m' & after & -> & Hbefore & ? & ?).
      exists (m :: before), m', after. by repeat constructor.
    + destruct IH as [-> ?]. by repeat constructor.
Qed.

(** X2. [type_from_name] returns the data type of the first measure that
    has the name, and fails with the message that names the name exactly when
    no measure has it. *)
Theorem type_from_name_first measures n :
  match type_from_name measures n with
  | Ok tp =>
      ∃ before m after,
        measures = before ++ m :: after ∧
        Forall (λ m', name m' ≠ n) before ∧ name m = n ∧ data_type m = tp
  | Raise e =>
      e = RuntimeError ("Name " +:+ n +:+ " not found in measures.json") ∧
      Forall (λ m, name m ≠ n) measures
  end.
Proof.
  induction measures as [|m measures IH]; simpl; [done|].
  destruct (String.eqb_spec (name m) n) as [Hn|Hn].
  - by exists [], m, measures.
  - destruct (type_from_name measures n) as [tp|e].
    + destruct IH as (before & m' & after & -> & Hbefore & ? & ?).
      exists (m :: before), m', after. by repeat constructor.
    + destruct IH as [-> ?]. by repeat constructor.
Qed.

(** X3. A name that [name_from_label] returned is a name of the catalog:
    [type_from_name] finds a type for it. *)
Theorem type_of_label_name measures l n :
  name_from_label measures l = Ok n →
  succeeds (type_from_name measures n).
Proof.
  induction measures as [|m measures IH]; simpl; [done|].
  destruct (String.eqb_spec (label m) l) as [_|_].
  - intros [= <-]. rewrite String.eqb_refl. by eexists.
  - intros Hn. destruct (String.eqb (name m) n); [by eexists | auto].
Qed.

End Catalog.

Lemma type_of_label_name_witness :
  succeeds (type_from_name sample_measures "usage_hours").
Proof.
  apply (type_of_label_name sample_measures "Usage Hours" "usage_hours").
  reflexivity.
Defined.

Section ConversionMore.
Context {T : Text}.

(** ** The type conversion *)

(** X4. A value that [convert] returns has the Python type of its declared
    type, and converting it again under the same type returns it unchanged. *)
Theorem convert_typed_and_stable (tp : string) (v w : value) :
  convert tp v = Ok w →
  has_type tp w = true ∧ convert tp w = Ok w.
Proof.
  unfold convert.
  repeat match goal with
  | |- context [String.eqb tp ?s] =>
      destruct (String.eqb_spec tp s) as [->|_]
  end; try done.
  all: destruct v as [s|z|q]; simpl;
    repeat match goal with
    | |- context [match ?o with Some _ => _ | None => _ end] => destruct o
    end; by intros [= <-].
Qed.

End ConversionMore.

Lemma convert_typed_and_stable_witness :
  let _ : Text := ascii_text in
  has_type "integer" (PInt 42) = true ∧
  convert "integer" (PInt 42) = Ok (PInt 42).
Proof.
  intros T.
  apply (convert_typed_and_stable (T:=ascii_text) "integer" (PStr "42")).
  reflexivity.
Defined.

Section Encoding.

(** ** The encoding of a filter *)

Lemma decode_quote_byte (c : ascii) (s : string) :
  decode (quote_byte c +:+ s) = String c (decode s).
Proof. by destruct c as [[] [] [] [] [] [] [] []]. Qed.

Lemma decode_quote (s : string) : decode (quote s) = s.
Proof.
  induction s as [|c s IH]; [done|].
  cbn [quote]. by rewrite decode_quote_byte, IH.
Qed.

Lemma quote_byte_no_delimiter (c : ascii) (s : string) :
  string_forallb (λ c, negb (delimiter c)) (quote_byte c +:+ s)
  = string_forallb (λ c, negb (delimiter c)) s.
Proof. by destruct c as [[] [] [] [] [] [] [] []]. Qed.

Lemma quote_no_delimiter (s : string) :
  string_forallb (λ c, negb (delimiter c)) (quote s) = true.
Proof.
  induction s as [|c s IH]; [done|].
  cbn [quote]. by rewrite quote_byte_no_delimiter.
Qed.

Lemma make_filter_Ok (key operator value e : string) :
  make_filter key operator value = Ok e →
  operator ∈ filter_operators ∧ e = quote (key +:+ operator +:+ value).
Proof.
  unfold make_filter. case_bool_decide; [|done]. by intros [= <-].
Qed.

(** X5. The encoding loses nothing: two filters with the same encoding
    have the same text, field followed by operator followed by value.  (The
    text does not tell where the operator starts: see the witness.) *)
Theorem make_filter_injective (k o v k' o' v' e : string) :
  make_filter k o v = Ok e →
  make_filter k' o' v' = Ok e →
  k +:+ o +:+ v = k' +:+ o' +:+ v'.
Proof.
  intros [_ ->]%make_filter_Ok [_ Heq]%make_filter_Ok.
  apply (f_equal decode) in Heq. by rewrite !decode_quote in Heq.
Qed.

(** X6. An encoded filter holds none of the characters that structure a
    query string: no ampersand, equals sign, comma, question mark, hash,
    space, plus or semicolon. *)
Theorem make_filter_no_delimiter (k o v e : string) :
  make_filter k o v = Ok e →
  string_forallb (λ c, negb (delimiter c)) e = true.
Proof. intros [_ ->]%make_filter_Ok. apply quote_no_delimiter. Qed.

End Encoding.

Lemma make_filter_injective_witness :
  "a" +:+ "!=" +:+ "=b" = "a" +:+ "!==" +:+ "b".
Proof.
  apply (make_filter_injective "a" "!=" "=b" "a" "!==" "b" "a%21%3D%3Db");
    reflexivity.
Defined.

Lemma make_filter_no_delimiter_witness :
  string_forallb (λ c, negb (delimiter c)) "cost%3E%3D10" = true.
Proof.
  apply (make_filter_no_delimiter "cost" ">=" "10"). reflexivity.
Defined.

Section NormaliserMore.
Context {T : Text}.
Implicit Types (self : Request) (ret out : columns) (types : dict string).
Implicit Types (mapping : dict string) (line : dict value).
Implicit Types (k n a : string) (names ms ds : list string).
Implicit Types (measures : list measure).

(** ** What a request must have *)

Lemma assigned_if_truthy_Some {A} (x : option (list A)) (l : list A) :
  assigned_if_truthy x = Some l ↔ x = Some l ∧ l ≠ [].
Proof.
  destruct x as [[|a l']|]; simpl.
  - split; [done | by intros [[= <-] ?]].
  - split; [by intros [= <-] | by intros [[= <-] _]].
  - split; [done | by intros [? _]].
Qed.

(** X7. Normalisation returns only for a request that was constructed
    with a non-empty list of metrics, a non-empty list of dimensions and a
    non-empty mapping; without metrics it raises [AttributeError] before it
    looks at the catalog or at the rows. *)
Theorem normalisation_needs_all_arguments
    (fs ds ms : option (list string)) (mappings : option (dict string))
    (days : Z) (request_result : list (dict value)) measures :
  let self := Request_init fs ds ms mappings days in
  (ms = None ∨ ms = Some [] →
   _request_result_to_dict self request_result measures
   = Raise (AttributeError "metrics")) ∧
  (succeeds (_request_result_to_dict self request_result measures) →
   (∃ l, ms = Some l ∧ l ≠ []) ∧ (∃ l, ds = Some l ∧ l ≠ []) ∧
   (∃ m, mappings = Some m ∧ m ≠ [])).
Proof.
  intros self. split.
  - by intros [->| ->].
  - intros [out Hout].
    apply request_result_to_dict_Ok in Hout as (ret & mapping & Hret & Hmap & _).
    apply typed_columns_spec in Hret as (ms' & ds' & Hms & Hds & _).
    simpl in Hms, Hds, Hmap.
    apply assigned_if_truthy_Some in Hms, Hds, Hmap.
    split; [by exists ms' | split; [by exists ds' | by exists mapping]].
Qed.

(** ** The catalog is consulted before the rows *)

Lemma init_column_Ok measures n (st : columns * dict string) tp :
  type_from_name measures n = Ok tp →
  init_column measures n st = Ok (dict_set n [] st.1, dict_set n tp st.2).
Proof. unfold init_column. by intros ->. Qed.

Lemma init_column_Raise measures n (st : columns * dict string) e :
  type_from_name measures n = Raise e → init_column measures n st = Raise e.
Proof. unfold init_column. by intros ->. Qed.

Lemma init_columns_Raise measures before n after st e :
  Forall (λ k, succeeds (type_from_name measures k)) before →
  type_from_name measures n = Raise e →
  for_each (init_column measures) (before ++ n :: after) st = Raise e.
Proof.
  intros Hbefore Hn. revert st.
  induction Hbefore as [|k before [tp Hk] _ IH]; intros st; simpl.
  - by rewrite (init_column_Raise _ _ _ _ Hn).
  - rewrite (init_column_Ok _ _ _ _ Hk). simpl. apply IH.
Qed.

Lemma typed_columns_init self request_result measures ms ds :
  metrics self = Some ms → dimensions self = Some ds →
  typed_columns self request_result measures
  = (st ← for_each (init_column measures) (ms ++ ds) ([], []);
     for_each (append_line ms ds st.2) request_result st.1).
Proof.
  intros Hms Hds. unfold typed_columns. rewrite Hms, Hds. simpl.
  rewrite for_each_app.
  by destruct (for_each (init_column measures) ms ([], [])).
Qed.

(** X8. When a requested name is not in the catalog, normalisation fails
    with the error of [type_from_name] for the first such name, metrics
    before dimensions, whatever the rows are. *)
Theorem normalisation_checks_catalog_first self measures ms ds
    (before after : list string) n e (request_result : list (dict value)) :
  metrics self = Some ms →
  dimensions self = Some ds →
  ms ++ ds = before ++ n :: after →
  Forall (λ k, succeeds (type_from_name measures k)) before →
  type_from_name measures n = Raise e →
  _request_result_to_dict self request_result measures = Raise e.
Proof.
  intros Hms Hds Hsplit Hbefore Hn. unfold _request_result_to_dict.
  rewrite (typed_columns_init _ _ _ _ _ Hms Hds), Hsplit.
  by rewrite (init_columns_Raise _ _ _ _ _ _ Hbefore Hn).
Qed.

End NormaliserMore.

Lemma normalisation_checks_catalog_first_witness :
  _request_result_to_dict (T:=ascii_text)
    (Request_init None (Some ["tag_project"]) (Some ["usage_hours"; "cost"])
                  (Some sample_mapping) 7)
    [[("nothing", PStr "here")]] sample_measures
  = Raise (RuntimeError "Name cost not found in measures.json").
Proof.
  apply (normalisation_checks_catalog_first (T:=ascii_text) _ sample_measures
           ["usage_hours"; "cost"] ["tag_project"]
           ["usage_hours"] ["tag_project"] "cost").
  - reflexivity.
  - reflexivity.
  - reflexivity.
  - repeat constructor. by eexists.
  - reflexivity.
Defined.

Section NormaliserContent.
Context {T : Text}.
Implicit Types (self : Request) (ret out : columns) (types : dict string).
Implicit Types (mapping : dict string) (line : dict value).
Implicit Types (k n a : string) (names ms ds : list string).
Implicit Types (measures : list measure).

(** ** The cells of a column *)

Lemma for_each_Ok_each {A S} (body : A → S → res S) (l : list A) (s s' : S) :
  for_each body l s = Ok s' →
  ∀ x, x ∈ l → ∃ t t', body x t = Ok t'.
Proof.
  revert s. induction l as [|y l IH]; intros s; simpl.
  - intros _ x Hx. by apply elem_of_nil in Hx.
  - intros (t & Hy & Hrest)%bind_Ok x [->|Hx]%elem_of_cons; [by eauto|].
    by eapply IH.
Qed.

Lemma init_columns_keys measures names (st st' : columns * dict string) :
  for_each (init_column measures) names st = Ok st' →
  NoDup (keys st.1 ++ names) →
  keys st'.1 = keys st.1 ++ names.
Proof.
  revert st. induction names as [|n names IH]; intros st; simpl.
  - intros [= <-] _. by rewrite app_nil_r.
  - intros (st1 & Hinit & Hrest)%bind_Ok Hnd.
    unfold init_column in Hinit.
    apply bind_Ok in Hinit as (tp & _ & [= <-]).
    assert (n ∉ keys st.1) as Hn.
    { apply NoDup_app in Hnd as (_ & Hnotin & _).
      intros Hin. apply (Hnotin n Hin). left. }
    apply IH in Hrest; simpl in *.
    + rewrite Hrest, dict_set_new by done.
      unfold keys. by rewrite fmap_app, <- app_assoc.
    + rewrite dict_set_new by done.
      unfold keys in *. by rewrite fmap_app, <- app_assoc.
Qed.

Lemma init_columns_types measures names (st st' : columns * dict string) :
  for_each (init_column measures) names st = Ok st' →
  (∀ k tp, dict_get k st.2 = Some tp → type_from_name measures k = Ok tp) →
  ∀ k tp, dict_get k st'.2 = Some tp → type_from_name measures k = Ok tp.
Proof.
  intros Hloop Hst.
  eapply (for_each_invariant
            (λ st : columns * dict string,
               ∀ k tp, dict_get k st.2 = Some tp →
                       type_from_name measures k = Ok tp)); [|done..].
  intros n t t' _ Ht Hbody k tp. unfold init_column in Hbody.
  apply bind_Ok in Hbody as (tp' & Htp' & [= <-]). simpl.
  rewrite dict_get_set. case_decide; [|by auto].
  intros [= <-]. by subst.
Qed.

Lemma append_cell_inv line types n ret ret' :
  append_cell line types n ret = Ok ret' →
  ∃ column tp cell,
    dict_get n ret = Some column ∧ dict_get n types = Some tp ∧
    cell_of tp n line = Ok cell ∧ ret' = dict_set n (column ++ [cell]) ret.
Proof.
  unfold append_cell, cell_of.
  intros (column & Hcol%getitem_Ok & Hrest)%bind_Ok.
  apply bind_Ok in Hrest as (tp & Htp%getitem_Ok & Hrest).
  apply bind_Ok in Hrest as (raw & Hraw & Hrest).
  apply bind_Ok in Hrest as (cell & Hcell & [= <-]).
  exists column, tp, cell. rewrite Hraw. by simpl.
Qed.

Lemma append_cells_content line types names ret ret' :
  NoDup names →
  for_each (append_cell line types) names ret = Ok ret' →
  ∀ k c, dict_get k ret = Some c →
    (k ∈ names →
     ∃ tp cell, dict_get k types = Some tp ∧ cell_of tp k line = Ok cell ∧
                dict_get k ret' = Some (c ++ [cell])) ∧
    (k ∉ names → dict_get k ret' = Some c).
Proof.
  intros Hnd. revert ret.
  induction Hnd as [|n names Hn Hnd IH]; intros ret; simpl.
  - intros [= <-] k c Hc. split; [by intros ?%elem_of_nil | done].
  - intros (ret1 & Hcell & Hrest)%bind_Ok k c Hc.
    apply append_cell_inv in Hcell as (column & tp & cell & Hcol & Htp & Hconv & ->).
    destruct (decide (k = n)) as [->|Hne].
    + assert (c = column) as -> by congruence.
      destruct (IH _ Hrest n (column ++ [cell])) as [_ Hkeep];
        [apply dict_get_set_eq|].
      split; [|by intros []; left].
      intros _. exists tp, cell. auto.
    + destruct (IH _ Hrest k c) as [Hin Hout];
        [by rewrite dict_get_set_ne|].
      split.
      * intros [?|?]%elem_of_cons; [done | auto].
      * intros [_ ?]%not_elem_of_cons. auto.
Qed.

Lemma append_lines_content ms ds types (request_result : list (dict value))
    ret ret' :
  NoDup (ms ++ ds) →
  for_each (append_line ms ds types) request_result ret = Ok ret' →
  ∀ k c tp, dict_get k ret = Some c → dict_get k types = Some tp →
    k ∈ ms ++ ds →
    ∃ cells,
      Forall2 (λ line cell, cell_of tp k line = Ok cell) request_result cells ∧
      dict_get k ret' = Some (c ++ cells).
Proof.
  intros Hnd. revert ret.
  induction request_result as [|line lines IH]; intros ret; simpl.
  - intros [= <-] k c tp Hc _ _. exists []. by rewrite app_nil_r.
  - intros (ret1 & Hline & Hrest)%bind_Ok k c tp Hc Htp Hk.
    unfold append_line in Hline. rewrite <- for_each_app in Hline.
    destruct (append_cells_content _ _ _ _ _ Hnd Hline k c Hc) as [Hin _].
    destruct (Hin Hk) as (tp' & cell & Htp' & Hcell & Hc1).
    assert (tp' = tp) as -> by congruence.
    destruct (IH _ Hrest k _ tp Hc1 Htp Hk) as (cells & Hcells & Hc').
    exists (cell :: cells). split; [by constructor|].
    by rewrite Hc', <- app_assoc.
Qed.

(** The typed columns of a request that names no measure twice: they come
    in the order of the request, metrics first, and each holds the cells of
    its name, row after row. *)
Lemma typed_columns_content self (request_result : list (dict value))
    measures ms ds ret :
  metrics self = Some ms → dimensions self = Some ds →
  NoDup (ms ++ ds) →
  typed_columns self request_result measures = Ok ret →
  keys ret = ms ++ ds ∧
  ∀ k col, dict_get k ret = Some col →
    ∃ tp, type_from_name measures k = Ok tp ∧
          Forall2 (λ line cell, cell_of tp k line = Ok cell)
                  request_result col.
Proof.
  intros Hms Hds Hnd. rewrite (typed_columns_init _ _ _ _ _ Hms Hds).
  intros (st & Hinit & Hrows)%bind_Ok.
  pose proof (init_columns_keys _ _ _ _ Hinit Hnd) as Hkeys.
  pose proof (init_columns_types _ _ _ _ Hinit) as Htypes.
  apply init_columns_spec in Hinit as (_ & _ & Htk & Hempty);
    [|apply NoDup_nil_2].
  simpl in *.
  pose proof (append_lines_spec _ _ _ _ _ _ Hrows) as [Hsame _].
  split; [congruence|].
  intros k col Hcol.
  assert (k ∈ ms ++ ds) as Hk.
  { rewrite <- Hkeys, <- Hsame. apply dict_get_is_Some. eauto. }
  assert (is_Some (dict_get k st.1)) as [c0 Hc0].
  { apply dict_get_is_Some. by rewrite Hkeys. }
  assert (c0 = []) as ->.
  { by destruct (Hempty _ _ Hc0). }
  assert (is_Some (dict_get k st.2)) as [tp Htp].
  { apply dict_get_is_Some, Htk. by right. }
  destruct (append_lines_content _ _ _ _ _ _ Hnd Hrows k [] tp Hc0 Htp Hk)
    as (cells & Hcells & Hcol').
  exists tp. split; [by apply Htypes|].
  simpl in Hcol'. by simplify_eq.
Qed.

Lemma rename_columns_alias mapping ret acc out :
  for_each (rename_column mapping) ret acc = Ok out →
  ∀ a c, (a, c) ∈ out →
    (a, c) ∈ acc ∨ ∃ k, (k, c) ∈ ret ∧ dict_get k mapping = Some a.
Proof.
  revert acc. induction ret as [|[k0 c0] ret IH]; intros acc; simpl.
  - intros [= <-] a c ?. by left.
  - intros (acc1 & Hstep & Hrest)%bind_Ok a c Hin.
    unfold rename_column in Hstep. simpl in Hstep.
    apply bind_Ok in Hstep as (a0 & Ha0%getitem_Ok & [= <-]).
    destruct (IH _ Hrest a c Hin) as [Hacc|(k & Hk & Hka)].
    + apply elem_of_dict_set in Hacc as [[= -> ->]|?]; [|by left].
      right. exists k0. split; [left | done].
    + right. exists k. split; [by right | done].
Qed.

(** X9. When no name is requested twice and a non-empty mapping is in
    effect, every column of the report is the column of a requested name under
    the alias the mapping gives it, and its cells are, in the order of the
    rows, the values of the rows under that name converted to the type the
    catalog declares for it. *)
Theorem columns_hold_converted_cells self
    (request_result : list (dict value)) measures mapping out :
  NoDup (output_keys self) →
  name_mapping self = Some mapping → mapping ≠ [] →
  _request_result_to_dict self request_result measures = Ok out →
  ∀ a col, (a, col) ∈ out →
    ∃ k tp,
      k ∈ output_keys self ∧ dict_get k mapping = Some a ∧
      type_from_name measures k = Ok tp ∧
      Forall2 (λ line cell, cell_of tp k line = Ok cell) request_result col.
Proof.
  intros Hnd Hmap Hne
    (ret & mapping' & Hret & Hmap' & Hout)%request_result_to_dict_Ok a col Hin.
  assert (mapping' = mapping) as -> by congruence.
  destruct Hout as [[? _]|[_ Hren]]; [done|].
  pose proof Hret as (ms & ds & Hms & Hds & Hndk & _)%typed_columns_spec.
  rewrite (output_keys_spec _ _ _ Hms Hds) in *.
  destruct (typed_columns_content _ _ _ _ _ _ Hms Hds Hnd Hret)
    as [Hkeys Hcells].
  destruct (rename_columns_alias _ _ _ _ Hren a col Hin)
    as [?%elem_of_nil|(k & Hk & Hka)]; [done|].
  destruct (Hcells k col) as (tp & Htp & Hcol); [by apply elem_of_dict_get|].
  exists k, tp. repeat split; try done.
  rewrite <- Hkeys. apply list_elem_of_fmap. by exists (k, col).
Qed.

(** X10. Normalisation returns nothing partial: if it returns, every row
    has a value under every requested name, the catalog declares a type for
    the name, and the value converts to it. *)
Theorem normalisation_reads_every_cell self
    (request_result : list (dict value)) measures out :
  _request_result_to_dict self request_result measures = Ok out →
  ∀ line k, line ∈ request_result → k ∈ output_keys self →
    ∃ tp, type_from_name measures k = Ok tp ∧ succeeds (cell_of tp k line).
Proof.
  intros (ret & _ & Hret & _)%request_result_to_dict_Ok line k Hline Hk.
  pose proof Hret as (ms & ds & Hms & Hds & _)%typed_columns_spec.
  rewrite (output_keys_spec _ _ _ Hms Hds) in Hk.
  rewrite (typed_columns_init _ _ _ _ _ Hms Hds) in Hret.
  apply bind_Ok in Hret as (st & Hinit & Hrows).
  pose proof (init_columns_types _ _ _ _ Hinit) as Htypes.
  destruct (for_each_Ok_each _ _ _ _ Hrows line Hline) as (t & t' & Hbody).
  unfold append_line in Hbody. rewrite <- for_each_app in Hbody.
  destruct (for_each_Ok_each _ _ _ _ Hbody k Hk) as (u & u' & Hcell).
  apply append_cell_inv in Hcell as (_ & tp & cell & _ & Htp & Hconv & _).
  exists tp. split; [by apply Htypes | by exists cell].
Qed.

End NormaliserContent.

Lemma columns_hold_converted_cells_witness :
  let _ : Text := ascii_text in
  ∃ k tp,
    k ∈ output_keys sample_request ∧
    dict_get k sample_mapping = Some "Usage_Hours" ∧
    type_from_name sample_measures k = Ok tp ∧
    Forall2 (λ line cell, cell_of tp k line = Ok cell)
            sample_rows [PInt 12; PInt 3].
Proof.
  intros T.
  apply (columns_hold_converted_cells (T:=ascii_text)
           sample_request sample_rows sample_measures sample_mapping
           [("Usage_Hours", [PInt 12; PInt 3]);
            ("Project", [PStr "A"; PStr "B"])]).
  - apply (bool_decide_unpack _). by vm_compute.
  - reflexivity.
  - discriminate.
  - reflexivity.
  - left.
Defined.

Lemma normalisation_reads_every_cell_witness :
  let _ : Text := ascii_text in
  ∃ tp, type_from_name sample_measures "tag_project" = Ok tp ∧
        succeeds (cell_of tp "tag_project"
                    [("tag_project", PStr "B"); ("usage_hours", PInt 3)]).
Proof.
  intros T.
  apply (normalisation_reads_every_cell (T:=ascii_text)
           sample_request sample_rows sample_measures
           [("Usage_Hours", [PInt 12; PInt 3]);
            ("Project", [PStr "A"; PStr "B"])]).
  - reflexivity.
  - right. left.
  - apply (bool_decide_unpack _). by vm_compute.
Defined.

(* ===================================================================== *)
(** * Further properties of [pr_costs] *)
(* ===================================================================== *)

Section AttributionMore.
Local Open Scope Qc_scope.
Implicit Types (k : key) (total : list Total.row) (rogue : list Rogue.row).
Implicit Types (row : Costs.row).

(** ** The keys of the report *)

Lemma costs_table_is_Some total rogue k :
  is_Some (costs_table total rogue !! k)
  ↔ k ∈ total_key <$> total ∨ k ∈ rogue_key <$> rogue.
Proof.
  rewrite costs_table_lookup, total_group, group_by_and_sum_lookup.
  rewrite adjust_keys.
  destruct (decide (k ∈ total_key <$> total)),
           (decide (k ∈ rogue_key <$> rogue)); simpl;
    split; try (by eauto); try (by intros [? ?]); by intros [?|?].
Qed.

(** X11. The report has exactly one row for every (Project, Branch) that the
    total report or the rogue report has, and no other row. *)
Theorem report_keys total rogue :
  NoDup (pr_costs total rogue).*1 ∧
  ∀ k, k ∈ (pr_costs total rogue).*1
       ↔ k ∈ total_key <$> total ∨ k ∈ rogue_key <$> rogue.
Proof.
  split; [apply pr_costs_one_row_per_key|].
  intros k. rewrite <- costs_table_is_Some. split.
  - intros ([k' row] & -> & Hin)%list_elem_of_fmap.
    exists row. by apply elem_of_pr_costs.
  - intros [row Hrow]. apply list_elem_of_fmap. exists (k, row).
    split; [done | by apply elem_of_pr_costs].
Qed.

(** ** The rogue figures *)








(** X14. A (Project, Branch) that only the rogue report has gets a row
    whose Cost and Usage_Hours are both undefined: nothing fills the total
    columns. *)
Theorem rogue_only_key_undefined total rogue k :
  k ∉ total_key <$> total →
  k ∈ rogue_key <$> rogue →
  ∃ row, (k, row) ∈ pr_costs total rogue ∧
         Costs.Cost row = NaN ∧ Costs.Usage_Hours row = NaN.
Proof.
  intros Hno Hk. setoid_rewrite elem_of_pr_costs.
  rewrite costs_table_lookup, total_group, decide_False by done.
  rewrite group_by_and_sum_lookup, adjust_keys, decide_True by done.
  simpl. eexists. split; [done|]. by simpl.
Qed.

End AttributionMore.



Lemma rogue_only_key_undefined_witness :
  ∃ row, (("C", "Z"), row) ∈ pr_costs sample_total stray_rogue ∧
         Costs.Cost row = NaN ∧ Costs.Usage_Hours row = NaN.
Proof.
  apply (rogue_only_key_undefined sample_total stray_rogue ("C", "Z")).
  - apply (bool_decide_unpack _). by vm_compute.
  - apply (bool_decide_unpack _). by vm_compute.
Defined.

Section ColumnOrder.
Context {T : Text}.

(** X15. When no name is requested twice and the non-empty mapping gives
    the requested names distinct aliases, the columns of the report come in
    the order of the request: the metrics in their order, then the
    dimensions in theirs, each under its alias. *)
Theorem columns_in_request_order (self : Request)
    (request_result : list (dict value)) (measures : list measure)
    (mapping : dict string) (out : columns) :
  NoDup (output_keys self) →
  name_mapping self = Some mapping → mapping ≠ [] →
  (∀ k k', k ∈ output_keys self → k' ∈ output_keys self →
           alias mapping k = alias mapping k' → k = k') →
  _request_result_to_dict self request_result measures = Ok out →
  keys out = alias mapping <$> output_keys self.
Proof.
  intros Hnd Hmap Hne Hinj
    (ret & mapping' & Hret & Hmap' & Hout)%request_result_to_dict_Ok.
  assert (mapping' = mapping) as -> by congruence.
  destruct Hout as [[? _]|[_ Hren]]; [done|].
  pose proof Hret as (ms & ds & Hms & Hds & _)%typed_columns_spec.
  rewrite (output_keys_spec _ _ _ Hms Hds) in *.
  destruct (typed_columns_content _ _ _ _ _ _ Hms Hds Hnd Hret) as [Hkeys _].
  assert (∀ k, k ∈ keys ret → is_Some (dict_get k mapping)) as Hall.
  { intros k Hk. destruct (dict_get k mapping) eqn:Hget; [by eexists|].
    destruct (rename_missing mapping ret []) as (k' & _ & _ & Hraise);
      [by exists k|].
    unfold rename in Hren. congruence. }
  unfold rename in Hren. rewrite rename_complete in Hren; [|done|].
  - injection Hren as <-. simpl. by rewrite keys_prod_map, Hkeys.
  - simpl. rewrite Hkeys. apply NoDup_fmap_2_strong; [|done].
    intros k k' ? ?. by apply Hinj.
Qed.

End ColumnOrder.

Lemma columns_in_request_order_witness :
  keys [("Usage_Hours", [PInt 12; PInt 3]); ("Project", [PStr "A"; PStr "B"])]
  = alias sample_mapping <$> output_keys sample_request.
Proof.
  apply (columns_in_request_order (T:=ascii_text)
           sample_request sample_rows sample_measures sample_mapping).
  - apply (bool_decide_unpack _). by vm_compute.
  - reflexivity.
  - discriminate.
  - intros k k' Hk Hk'. vm_compute in Hk, Hk'.
    apply elem_of_cons in Hk as [->|Hk];
      [|apply elem_of_cons in Hk as [->|Hk]; [|by apply elem_of_nil in Hk]];
      (apply elem_of_cons in Hk' as [->|Hk'];
       [|apply elem_of_cons in Hk' as [->|Hk'];
         [|by apply elem_of_nil in Hk']]);
      intros Heq; try reflexivity; vm_compute in Heq; discriminate Heq.
  - reflexivity.
Defined.

(* ===================================================================== *)
(** * Properties of the functions that talk to the outside *)
(* ===================================================================== *)

Lemma io_bind_Return {A B} (m : io A) (f : A → io B) (b : B) :
  m ≫= f = Return b ↔ ∃ a, m = Return a ∧ f a = Return b.
Proof.
  destruct m as [a|e]; simpl.
  - split; [by exists a | by intros (? & [= <-] & ?)].
  - split; [done | by intros (? & ? & ?)].
Qed.

Lemma lift_Return {A} (m : res A) (a : A) : lift m = Return a ↔ m = Ok a.
Proof. destruct m; simpl; split; by intros [= <-]. Qed.

Section Report.
Context {T : Text} {C : Clock}.

(** ** Request.report *)

(** X16. A report returns only for a request that was constructed with
    non-empty filters, dimensions, metrics and mapping, whatever the clock
    and the transport: each of the four is an attribute that the report
    reads and that [__init__] leaves unset otherwise. *)
Theorem report_needs_all_arguments
    (fs ds ms : option (list string)) (mappings : option (dict string))
    (days : Z) (handler : string → io (list (dict value)))
    (measures : list measure) (now : instant) (out : columns) :
  report (Request_init fs ds ms mappings days) handler measures now
  = Return out →
  (∃ l, fs = Some l ∧ l ≠ []) ∧ (∃ l, ds = Some l ∧ l ≠ []) ∧
  (∃ l, ms = Some l ∧ l ≠ []) ∧ (∃ m, mappings = Some m ∧ m ≠ []).
Proof.
  unfold report.
  intros (start & _ & Hrest)%io_bind_Return.
  apply io_bind_Return in Hrest as (ds' & Hds%lift_Return%getattr_Ok & Hrest).
  apply io_bind_Return in Hrest as (fs' & Hfs%lift_Return%getattr_Ok & Hrest).
  apply io_bind_Return in Hrest as (ms' & Hms%lift_Return%getattr_Ok & Hrest).
  apply io_bind_Return in Hrest as (rows & _ & Hout%lift_Return).
  apply request_result_to_dict_Ok in Hout as (_ & mapping & _ & Hmap & _).
  simpl in Hds, Hfs, Hms, Hmap.
  apply assigned_if_truthy_Some in Hds, Hfs, Hms, Hmap.
  split; [by exists fs' | split; [by exists ds' |
    split; [by exists ms' | by exists mapping]]].
Qed.

End Report.

Example report_query :
  report (T:=ascii_text) (C:=day_clock) full_request
         (λ query, Throw (Foreign query)) sample_measures 20761%Z
  = Throw (Foreign
      ("dimensions=tag_project&start_date=2026-10-28&end_date=2026-11-04"
       +:+ "&filters=vendor_account_identifier%3D%3D933752197999"
       +:+ "&metrics=usage_hours")).
Proof. reflexivity. Qed.

Lemma report_needs_all_arguments_witness :
  (∃ l, Some ["vendor_account_identifier%3D%3D933752197999"] = Some l ∧ l ≠ []) ∧
  (∃ l, Some ["tag_project"] = Some l ∧ l ≠ []) ∧
  (∃ l, Some ["usage_hours"] = Some l ∧ l ≠ []) ∧
  (∃ m, Some sample_mapping = Some m ∧ m ≠ []).
Proof.
  apply (report_needs_all_arguments (T:=ascii_text) (C:=day_clock)
           _ _ _ _ 7 sample_handler sample_measures 20761%Z
           [("Usage_Hours", [PInt 12; PInt 3]);
            ("Project", [PStr "A"; PStr "B"])]).
  reflexivity.
Defined.

Section QueryReport.
Context {T : Text} {H : Http}.
Implicit Types (d : dict json) (response results : json).

(** ** CloudabilityReport._query_report *)

Lemma dict_get_nonempty {V} (d : dict V) (k : string) (v : V) :
  dict_get k d = Some v → d ≠ [].
Proof. by destruct d. Qed.

Lemma query_report_dict (token query : string) d :
  get_json ("https://api.cloudability.com/v3/reporting/cost/run?" +:+ query)
           token
  = Return (JDict d) →
  d ≠ [] →
  _query_report token query
  = (pagination ← lift (getitem d "pagination");
     results ← lift (getitem d "results");
     n ← py_len results;
     total_results ← lift (getitem d "total_results");
     total ← json_int total_results;
     if (Z.of_nat n =? total)%Z then Return results
     else Throw (AssertionError "Pagination not supported yet")).
Proof.
  intros Hget Hd. unfold _query_report.
  change ("https://" +:+ CLOUDABILITY_API +:+ "/v3/reporting/cost/run?" +:+ query)
    with ("https://api.cloudability.com/v3/reporting/cost/run?" +:+ query).
  rewrite Hget. by destruct d.
Qed.

(** X17. A paginated response is not refused: whatever the response holds
    under [pagination], its results are returned as soon as their number is
    the number under [total_results]. *)
Theorem paginated_response_is_returned (token query : string) d
    (pagination total_results : json) (results : list json) :
  get_json ("https://api.cloudability.com/v3/reporting/cost/run?" +:+ query)
           token
  = Return (JDict d) →
  dict_get "pagination" d = Some pagination →
  dict_get "results" d = Some (JList results) →
  dict_get "total_results" d = Some total_results →
  json_int total_results = Return (Z.of_nat (length results)) →
  _query_report token query = Return (JList results).
Proof.
  intros Hget Hp Hr Ht Hn.
  rewrite (query_report_dict _ _ _ Hget) by by eapply dict_get_nonempty.
  unfold getitem. rewrite Hp, Hr, Ht. simpl. rewrite Hn. simpl.
  by rewrite Z.eqb_refl.
Qed.

(** X18. What [_query_report] returns is the value the response holds
    under [results], the response is a dict that also has [pagination] and
    [total_results], and the length of the results is the integer under
    [total_results]. *)
Theorem query_report_returns_counted_results (token query : string) results :
  _query_report token query = Return results →
  ∃ d pagination total_results n,
    get_json ("https://api.cloudability.com/v3/reporting/cost/run?" +:+ query)
             token
    = Return (JDict d) ∧
    dict_get "pagination" d = Some pagination ∧
    dict_get "results" d = Some results ∧
    dict_get "total_results" d = Some total_results ∧
    py_len results = Return n ∧
    json_int total_results = Return (Z.of_nat n).
Proof.
  unfold _query_report.
  intros (response & Hget & Hrest)%io_bind_Return.
  destruct response as [| | | | | |d]; try done.
  destruct (negb (truthy (JDict d))); [done|].
  apply io_bind_Return in Hrest as (p & Hp%lift_Return%getitem_Ok & Hrest).
  apply io_bind_Return in Hrest as (r & Hr%lift_Return%getitem_Ok & Hrest).
  apply io_bind_Return in Hrest as (n & Hn & Hrest).
  apply io_bind_Return in Hrest as (t & Ht%lift_Return%getitem_Ok & Hrest).
  apply io_bind_Return in Hrest as (total & Htotal & Hrest).
  destruct (Z.eqb_spec (Z.of_nat n) total) as [<-|]; [|done].
  injection Hrest as <-. by exists d, p, t, n.
Qed.

(** X19. A response whose results are not as many as [total_results] says
    is refused by the assertion. *)
Theorem miscounted_response_is_refused (token query : string) d
    (pagination results total_results : json) (n : nat) (total : Z) :
  get_json ("https://api.cloudability.com/v3/reporting/cost/run?" +:+ query)
           token
  = Return (JDict d) →
  dict_get "pagination" d = Some pagination →
  dict_get "results" d = Some results →
  py_len results = Return n →
  dict_get "total_results" d = Some total_results →
  json_int total_results = Return total →
  Z.of_nat n ≠ total →
  _query_report token query
  = Throw (AssertionError "Pagination not supported yet").
Proof.
  intros Hget Hp Hr Hn Ht Htotal Hne.
  rewrite (query_report_dict _ _ _ Hget) by by eapply dict_get_nonempty.
  unfold getitem. rewrite Hp, Hr, Ht. simpl. rewrite Hn. simpl.
  rewrite Htotal. simpl.
  by destruct (Z.eqb_spec (Z.of_nat n) total).
Qed.

End QueryReport.

Lemma paginated_response_is_returned_witness :
  _query_report (T:=ascii_text) (H:=sample_http) "token" "metrics=usage_hours"
  = Return (JList
      [ JDict [("usage_hours", JStr "12"); ("tag_project", JStr "A")];
        JDict [("tag_project", JStr "B"); ("usage_hours", JInt 3)] ]).
Proof.
  eapply (paginated_response_is_returned (T:=ascii_text) (H:=sample_http));
    reflexivity.
Defined.

Lemma query_report_returns_counted_results_witness :
  ∃ d pagination total_results n,
    get_json (Http:=sample_http)
      ("https://api.cloudability.com/v3/reporting/cost/run?"
       +:+ "metrics=usage_hours") "token"
    = Return (JDict d) ∧
    dict_get "pagination" d = Some pagination ∧
    dict_get "results" d
    = Some (JList
        [ JDict [("usage_hours", JStr "12"); ("tag_project", JStr "A")];
          JDict [("tag_project", JStr "B"); ("usage_hours", JInt 3)] ]) ∧
    dict_get "total_results" d = Some total_results ∧
    py_len (JList
        [ JDict [("usage_hours", JStr "12"); ("tag_project", JStr "A")];
          JDict [("tag_project", JStr "B"); ("usage_hours", JInt 3)] ])
    = Return n ∧
    json_int (T:=ascii_text) total_results = Return (Z.of_nat n).
Proof.
  apply (query_report_returns_counted_results (T:=ascii_text) (H:=sample_http)
           "token" "metrics=usage_hours").
  reflexivity.
Defined.

Lemma miscounted_response_is_refused_witness :
  _query_report (T:=ascii_text) (H:=short_http) "token" "metrics=usage_hours"
  = Throw (AssertionError "Pagination not supported yet").
Proof.
  eapply (miscounted_response_is_refused (T:=ascii_text) (H:=short_http));
    try reflexivity.
  discriminate.
Defined.

Section Token.
Context {O : Os}.

(** ** get_cloudability_token *)

Lemma remove_newlines_clean (s : string) :
  string_forallb (λ c, negb (Ascii.eqb c newline)) (remove_newlines s) = true.
Proof.
  induction s as [|c s IH]; [done|]. simpl.
  destruct (Ascii.eqb c "010"%char) eqn:Hc; [done|].
  simpl. unfold newline at 1. by rewrite Hc.
Qed.

Lemma given_Some (arg : option string) :
  given arg = true → ∃ s, arg = Some s ∧ s ≠ "".
Proof.
  destruct arg as [s|]; simpl; [|done].
  destruct (String.eqb_spec s ""); [done|]. by exists s.
Qed.

(** X20. A token that [get_cloudability_token] returns is never empty, and
    it comes from the first source that was given: the [--token] argument
    itself; else the environment variable named by [--token-env-var]; else
    the output of the command of [--token-command], with every newline
    removed. *)
Theorem token_from_first_source (args : Args.t) (t : string) :
  get_cloudability_token args = Return t →
  t ≠ "" ∧
  (given (Args.token args) = true → Args.token args = Some t) ∧
  (given (Args.token args) = false →
   given (Args.token_env_var args) = true →
   ∃ var, Args.token_env_var args = Some var ∧ getenv var = Some t) ∧
  (given (Args.token args) = false →
   given (Args.token_env_var args) = false →
   ∃ cmd out,
     Args.token_command args = Some cmd ∧ check_output cmd = Return out ∧
     t = remove_newlines out ∧
     string_forallb (λ c, negb (Ascii.eqb c newline)) t = true).
Proof.
  unfold get_cloudability_token.
  intros (tok & Hsrc & Hcheck)%io_bind_Return.
  destruct (given tok) eqn:Htok; [|done].
  injection Hcheck as <-.
  apply given_Some in Htok as (t & -> & Ht). simpl.
  split; [done|].
  destruct (given (Args.token args)) eqn:H1.
  { injection Hsrc as ->. by repeat split. }
  destruct (given (Args.token_env_var args)) eqn:H2.
  { injection Hsrc as Hsrc. apply given_Some in H2 as (var & Hvar & _).
    rewrite Hvar in *. simpl in Hsrc. split; [done|]. split; [|done].
    intros _ _. by exists var. }
  destruct (given (Args.token_command args)) eqn:H3; [|done].
  apply given_Some in H3 as (cmd & Hcmd & _). rewrite Hcmd in *. simpl in Hsrc.
  apply io_bind_Return in Hsrc as (out & Hout & [= <-]).
  split; [done|]. split; [done|]. intros _ _.
  exists cmd, out. repeat split; try done. apply remove_newlines_clean.
Qed.

End Token.

Lemma token_from_first_source_witness :
  let _ : Os := sample_os in
  let args := Args.Make None None (Some "pass cloudability_secret") in
  "s3" ≠ "" ∧
  (given (Args.token args) = true → Args.token args = Some "s3") ∧
  (given (Args.token args) = false →
   given (Args.token_env_var args) = true →
   ∃ var, Args.token_env_var args = Some var ∧ getenv var = Some "s3") ∧
  (given (Args.token args) = false →
   given (Args.token_env_var args) = false →
   ∃ cmd out,
     Args.token_command args = Some cmd ∧ check_output cmd = Return out ∧
     "s3" = remove_newlines out ∧
     string_forallb (λ c, negb (Ascii.eqb c newline)) "s3" = true).
Proof.
  intros O args.
  apply (token_from_first_source (O:=sample_os) args "s3").
  reflexivity.
Defined.

Section Locality.
Implicit Types (k : key) (total : list Total.row) (rogue : list Rogue.row).

Lemma group_by_and_sum_local (df df' : list (key * (fnum * fnum))) k :
  filter (λ r, r.1 = k) df = filter (λ r, r.1 = k) df' →
  group_by_and_sum df !! k = group_by_and_sum df' !! k.
Proof.
  intros Heq. rewrite !group_by_and_sum_lookup, Heq.
  destruct (decide (k ∈ df.*1)) as [Hk|Hk], (decide (k ∈ df'.*1)) as [Hk'|Hk'];
    try done.
  - apply (filter_nil_key fst) in Hk'. rewrite <- Heq in Hk'.
    by apply (filter_nil_key fst) in Hk'.
  - apply (filter_nil_key fst) in Hk. rewrite Heq in Hk.
    by apply (filter_nil_key fst) in Hk.
Qed.

(** X21. The groups do not mix: the row of a (Project, Branch) in the
    report depends only on the rows that the two reports have for this key.
    Two pairs of reports with the same rows of the key, in the same order,
    give it the same row. *)
Theorem report_row_depends_on_its_group total total' rogue rogue' k
    (row : Costs.row) :
  total_of k total = total_of k total' →
  rogue_of k rogue = rogue_of k rogue' →
  (k, row) ∈ pr_costs total rogue ↔ (k, row) ∈ pr_costs total' rogue'.
Proof.
  intros Htotal Hrogue. rewrite !elem_of_pr_costs, !costs_table_lookup.
  rewrite (group_by_and_sum_local (total_frame total) (total_frame total')).
  2:{ unfold total_frame.
      rewrite !(filter_key_fmap total_key
                  (λ r, (Fin (Total.Cost r), Fin (Total.Usage_Hours r)))).
      unfold total_of in Htotal. by rewrite Htotal. }
  rewrite (group_by_and_sum_local (adjust <$> rogue) (adjust <$> rogue')).
  2:{ change adjust with (λ r, (rogue_key r, (adjust r).2)).
      rewrite !(filter_key_fmap rogue_key (λ r, (adjust r).2)).
      unfold rogue_of in Hrogue. by rewrite Hrogue. }
  done.
Qed.

End Locality.

Lemma report_row_depends_on_its_group_witness :
  let row := Costs.Row (Fin (Qc_of_Z 5)) (Fin (Qc_of_Z 10))
                       (Fin 0%Qc) (Fin 0%Qc) in
  (("B", "Y"), row) ∈ pr_costs sample_total sample_rogue
  ↔ (("B", "Y"), row) ∈ pr_costs sample_total stray_rogue.
Proof.
  intros row.
  apply (report_row_depends_on_its_group
           sample_total sample_total sample_rogue stray_rogue ("B", "Y"));
    reflexivity.
Defined.
